(** * snd-xonar-ae: output switch of the ASUS XONAR AE

    Shallow embedding of [snd-xonar-ae.c].  The module keeps two
    globals ([xonar_udev], [current_output]) and talks to the outside
    through the kernel: the allocator, the USB core, a mutex and the
    log.  The globals, the host and a log of the calls made to it are
    threaded through every function by a small state monad; a C [int]
    result is a [Z] (negative errno on failure), a [u8] is a
    [Byte.byte], a [const char *] is a [string] read up to its first
    NUL. *)

From Stdlib Require Import ZArith List String Ascii Bool Lia.
From Stdlib.Strings Require Import Byte.
Import ListNotations.
Open Scope Z_scope.

(** ** What the module takes from the kernel headers *)

Module Kernel.

Definition ENOMEM : Z := 12.
Definition ENODEV : Z := 19.
Definition EINVAL : Z := 22.

(* linux/usb/ch9.h *)
Definition USB_DIR_OUT : Z := 0.
Definition USB_DIR_IN : Z := 0x80.
Definition USB_TYPE_CLASS : Z := Z.shiftl 0x01 5.
Definition USB_RECIP_INTERFACE : Z := 0x01.

(** [*s]: the character a C string points at; the terminator once
    the characters are used up. *)
Definition deref (s : string) : ascii :=
  match s with
  | EmptyString => Ascii.zero
  | String c _ => c
  end.

(** [s + 1], never moved past the terminator. *)
Definition next (s : string) : string :=
  match s with
  | EmptyString => EmptyString
  | String _ r => r
  end.

Definition is_nul (c : ascii) : bool := Ascii.eqb c Ascii.zero.

Definition newline : ascii := "010"%char.

(** The three tests that follow the loop of [sysfs_streq]. *)
Definition sysfs_streq_tail (s1 s2 : string) : bool :=
  if Ascii.eqb (deref s1) (deref s2) then true
  else if is_nul (deref s1) && Ascii.eqb (deref s2) newline
          && is_nul (deref (next s2)) then true
  else if Ascii.eqb (deref s1) newline && is_nul (deref (next s1))
          && is_nul (deref s2) then true
  else false.

(** lib/string.c, [sysfs_streq]: equality of two C strings where one
    trailing newline on either side does not count.
    [while ( *s1 && *s1 == *s2) { s1++; s2++; }] and then the tail. *)
Fixpoint sysfs_streq (s1 s2 : string) : bool :=
  match s1 with
  | String c r1 =>
      if negb (is_nul c) && Ascii.eqb c (deref s2)
      then sysfs_streq r1 (next s2)
      else sysfs_streq_tail s1 s2
  | EmptyString => sysfs_streq_tail s1 s2
  end.

(** The characters of a C string: everything before the first NUL. *)
Fixpoint cstr (s : string) : string :=
  match s with
  | EmptyString => EmptyString
  | String c r => if is_nul c then EmptyString else String c (cstr r)
  end.

End Kernel.
Import Kernel.

(** ** USB objects *)

(** The part of [struct usb_device] the module looks at.  The
    descriptor fields are kept as the numbers [le16_to_cpu] yields. *)
Record usb_device : Type := {
  devnum : Z;
  idVendor : Z;
  idProduct : Z
}.

Definition le16_to_cpu (x : Z) : Z := x.

(** A control pipe on an endpoint of a device, by direction. *)
Inductive usb_pipe : Type :=
| usb_sndctrlpipe (dev : usb_device) (endpoint : Z)
| usb_rcvctrlpipe (dev : usb_device) (endpoint : Z).

(** The arguments of one [usb_control_msg] call. *)
Record control_msg : Type := {
  cm_dev : usb_device;
  cm_pipe : usb_pipe;
  cm_request : Z;
  cm_requesttype : Z;
  cm_value : Z;
  cm_index : Z;
  cm_data : list byte;
  cm_size : Z;
  cm_timeout : Z
}.

(** Calls that leave the module, in the order they are made. *)
Inductive event : Type :=
| EvGetDev (d : usb_device)
| EvPutDev (d : usb_device)
| EvControlMsg (m : control_msg)
| EvMutexLock
| EvMutexUnlock
| EvPrInfo (line : string)
| EvPrErr (line : string).

(** The host the module runs on.  [env] is whatever the host keeps
    between calls; every reaction of the host is a function of it, so
    a theorem over all hosts covers every device, every reply and
    every allocation failure. *)
Class Host (env : Type) : Type := {
  (* the devices usb_for_each_dev walks over, in its order *)
  host_devices : env -> list usb_device;
  (* kmalloc: the bytes found in the fresh block, or no block *)
  host_kmalloc : env -> nat -> option (nat -> byte) * env;
  (* usb_control_msg: its result and the bytes the device sent back *)
  host_control_msg : env -> control_msg -> (Z * list byte) * env
}.

(** ** Module constants *)

Definition XONAR_VENDOR_ID : Z := 0x0B05.
Definition XONAR_PRODUCT_ID : Z := 0x180F.
Definition UAC2_CS_CUR : Z := 0x01.
Definition XONAR_OUTPUT_SEL_CS : Z := 0x08.
Definition XONAR_CONNECTOR_CS : Z := 0x02.
Definition XONAR_OT7_ID : Z := 7.

(** ** Buffers *)

(** [buf[i] = v] inside the block. *)
Fixpoint buf_store (buf : list byte) (i : nat) (v : byte) : list byte :=
  match buf, i with
  | [], _ => []
  | _ :: rest, O => v :: rest
  | b :: rest, S j => b :: buf_store rest j v
  end.

(** [buf[i]]. *)
Definition buf_load (buf : list byte) (i : nat) : byte := nth i buf x00.

(** The block after a transfer wrote [reply] at its start; the block
    keeps its size. *)
Fixpoint buf_fill (reply buf : list byte) : list byte :=
  match buf, reply with
  | [], _ => []
  | _, [] => buf
  | _ :: rest, r :: reply' => r :: buf_fill reply' rest
  end.

Section Driver.

Context {env : Type} {H : Host env}.

(** ** Machine state *)

Record kstate : Type := {
  xonar_udev : option usb_device;   (* NULL is None *)
  current_output : Z;
  host : env;
  klog : list event
}.

Definition set_udev (u : option usb_device) (s : kstate) : kstate :=
  {| xonar_udev := u; current_output := current_output s;
     host := host s; klog := klog s |}.

Definition set_output (v : Z) (s : kstate) : kstate :=
  {| xonar_udev := xonar_udev s; current_output := v;
     host := host s; klog := klog s |}.

Definition set_host (e : env) (s : kstate) : kstate :=
  {| xonar_udev := xonar_udev s; current_output := current_output s;
     host := e; klog := klog s |}.

Definition log (ev : event) (s : kstate) : kstate :=
  {| xonar_udev := xonar_udev s; current_output := current_output s;
     host := host s; klog := klog s ++ [ev] |}.

(** The module as the loader finds it: both globals at their
    initialisers. *)
Definition module_image (e : env) : kstate :=
  {| xonar_udev := None; current_output := -1; host := e; klog := [] |}.

(** ** The monad *)

Definition M (A : Type) : Type := kstate -> A * kstate.

Definition ret {A} (a : A) : M A := fun s => (a, s).

Definition bind {A B} (m : M A) (k : A -> M B) : M B :=
  fun s => let (a, s') := m s in k a s'.

Definition gets {A} (f : kstate -> A) : M A := fun s => (f s, s).

Definition modify (f : kstate -> kstate) : M unit := fun s => (tt, f s).

End Driver.

Declare Scope drv_scope.
Delimit Scope drv_scope with drv.
Notation "x <- m ;; k" := (bind m (fun x => k))
  (at level 61, m at next level, right associativity) : drv_scope.
Notation "m ;; k" := (bind m (fun _ => k))
  (at level 61, right associativity) : drv_scope.
Open Scope drv_scope.
Notation "' pat <- m ;; k" :=
  (bind m (fun x => match x with pat => k end))
  (at level 61, pat pattern, m at next level, right associativity) : drv_scope.

Definition nl : string := String newline EmptyString.

Section Xonar.

Context {env : Type} {H : Host env}.

Local Abbreviation M := (@M env).

(** ** Kernel services, as the module calls them *)

Definition kmalloc (size : nat) : M (option (list byte)) :=
  fun s =>
    let (r, e) := host_kmalloc (host s) size in
    (option_map (fun block => map block (seq 0 size)) r, set_host e s).

Definition kfree (buf : list byte) : M unit := ret tt.

(** One control transfer.  The result comes with the block as the
    call leaves it: untouched on a send pipe, overwritten from its
    start by what the device sent on a receive pipe. *)
Definition usb_control_msg (dev : usb_device) (pipe : usb_pipe)
    (request requesttype value index : Z) (data : list byte)
    (size timeout : Z) : M (Z * list byte) :=
  fun s =>
    let m := {| cm_dev := dev; cm_pipe := pipe; cm_request := request;
                cm_requesttype := requesttype; cm_value := value;
                cm_index := index; cm_data := data; cm_size := size;
                cm_timeout := timeout |} in
    let '(r, reply, e) := host_control_msg (host s) m in
    let data' := match pipe with
                 | usb_sndctrlpipe _ _ => data
                 | usb_rcvctrlpipe _ _ => buf_fill reply data
                 end in
    ((r, data'), log (EvControlMsg m) (set_host e s)).

Definition usb_get_dev (d : usb_device) : M usb_device :=
  fun s => (d, log (EvGetDev d) s).

Definition usb_put_dev (d : usb_device) : M unit := modify (log (EvPutDev d)).

Definition mutex_lock : M unit := modify (log EvMutexLock).
Definition mutex_unlock : M unit := modify (log EvMutexUnlock).
Definition pr_info (line : string) : M unit := modify (log (EvPrInfo line)).
Definition pr_err (line : string) : M unit := modify (log (EvPrErr line)).

(** [sprintf(buf, text)] with a format that has no conversion: the
    count of characters written and the text left in [buf]. *)
Definition sprintf (text : string) : Z * string :=
  (Z.of_nat (String.length text), text).

(** [usb_for_each_dev(data, fn)]: [fn] on each device in turn until
    it answers non-zero.  [data] is passed by reference in C, so the
    callback hands back its new content. *)
Fixpoint for_each_dev {D : Type} (devs : list usb_device) (data : D)
    (fn : usb_device -> D -> M (Z * D)) : M (Z * D) :=
  match devs with
  | [] => ret (0, data)
  | d :: rest =>
      ' (r, data') <- fn d data ;;
      if r =? 0 then for_each_dev rest data' fn else ret (r, data')
  end.

Definition usb_for_each_dev {D : Type} (data : D)
    (fn : usb_device -> D -> M (Z * D)) : M (Z * D) :=
  devs <- gets (fun s => host_devices (host s)) ;;
  for_each_dev devs data fn.

(** ** The module *)

Definition match_xonar (udev : usb_device) (found : option usb_device)
    : M (Z * option usb_device) :=
  if (le16_to_cpu (idVendor udev) =? XONAR_VENDOR_ID)
     && (le16_to_cpu (idProduct udev) =? XONAR_PRODUCT_ID)
  then d <- usb_get_dev udev ;; ret (1, Some d)
  else ret (0, found).

Definition find_xonar : M (option usb_device) :=
  ' (_, found) <- usb_for_each_dev None match_xonar ;;
  ret found.

Definition xonar_switch (udev : usb_device) (speakers : Z) : M Z :=
  buf <- kmalloc 2 ;;
  match buf with
  | None => ret (- ENOMEM)
  | Some buf =>
      let buf := buf_store buf 0 (if speakers =? 0 then x02 else x01) in
      let buf := buf_store buf 1 x03 in
      ' (r, _) <- usb_control_msg udev (usb_sndctrlpipe udev 0)
                    UAC2_CS_CUR
                    (Z.lor (Z.lor USB_TYPE_CLASS USB_RECIP_INTERFACE)
                           USB_DIR_OUT)
                    (Z.shiftl XONAR_OUTPUT_SEL_CS 8)
                    (Z.lor (Z.shiftl XONAR_OT7_ID 8) 0)
                    buf 2 1000 ;;
      kfree buf ;;
      ret r
  end.

Definition xonar_get_status (udev : usb_device) : M Z :=
  buf <- kmalloc 6 ;;
  match buf with
  | None => ret (- ENOMEM)
  | Some buf =>
      ' (r, buf) <- usb_control_msg udev (usb_rcvctrlpipe udev 0)
                      UAC2_CS_CUR
                      (Z.lor (Z.lor USB_TYPE_CLASS USB_RECIP_INTERFACE)
                             USB_DIR_IN)
                      (Z.shiftl XONAR_CONNECTOR_CS 8)
                      (Z.lor (Z.shiftl XONAR_OT7_ID 8) 0)
                      buf 6 1000 ;;
      if r <? 0 then
        kfree buf ;; ret r
      else
        let result := if Byte.eqb (buf_load buf 0) x08 then 1 else 0 in
        kfree buf ;;
        ret result
  end.

(** The if/else chain of [output_set] that assigns [speakers]; [None]
    is its last branch, which leaves with [-EINVAL]. *)
Definition output_token (val : string) : option Z :=
  if sysfs_streq val "speakers" || sysfs_streq val "1" then Some 1
  else if sysfs_streq val "headphones" || sysfs_streq val "0" then Some 0
  else None.

Definition output_name (speakers : Z) : string :=
  if speakers =? 0 then "headphones" else "speakers".

(** The critical section of [output_set], from [mutex_lock] to the
    [return] after [mutex_unlock], with [speakers] already chosen. *)
Definition output_set_locked (udev : usb_device) (speakers : Z) : M Z :=
  mutex_lock ;;
  r <- xonar_switch udev speakers ;;
  (if r >=? 0 then
     modify (set_output speakers) ;;
     pr_info ("xonar-ae: switched to " ++ output_name speakers ++ nl)
   else ret tt) ;;
  mutex_unlock ;;
  ret (if r <? 0 then r else 0).

(** The handle tested on entry is the one passed to [xonar_switch]:
    the global is read twice in C, and nothing writes it in between. *)
Definition output_set (val : string) : M Z :=
  udev <- gets xonar_udev ;;
  match udev with
  | None => ret (- ENODEV)
  | Some udev =>
      match output_token val with
      | None => ret (- EINVAL)
      | Some speakers => output_set_locked udev speakers
      end
  end.

(** The result is what [sprintf] returned and the text it left in
    the caller's buffer. *)
Definition output_get : M (Z * string) :=
  udev <- gets xonar_udev ;;
  match udev with
  | None => ret (sprintf ("disconnected" ++ nl))
  | Some udev =>
      mutex_lock ;;
      status <- xonar_get_status udev ;;
      (if status >=? 0 then modify (set_output status) else ret tt) ;;
      mutex_unlock ;;
      cur <- gets current_output ;;
      if cur =? 1 then ret (sprintf ("speakers" ++ nl))
      else if cur =? 0 then ret (sprintf ("headphones" ++ nl))
      else ret (sprintf ("unknown" ++ nl))
  end.

Definition xonar_ae_init : M Z :=
  found <- find_xonar ;;
  modify (set_udev found) ;;
  match found with
  | None =>
      pr_err ("xonar-ae: ASUS XONAR AE (0B05:180F) not found" ++ nl) ;;
      ret (- ENODEV)
  | Some udev =>
      status <- xonar_get_status udev ;;
      modify (set_output (if status >=? 0 then status else -1)) ;;
      cur <- gets current_output ;;
      pr_info ("xonar-ae: loaded (current output: "
               ++ (if cur =? 1 then "speakers"
                   else if cur =? 0 then "headphones" else "unknown")
               ++ ")" ++ nl) ;;
      ret 0
  end.

Definition xonar_ae_exit : M unit :=
  udev <- gets xonar_udev ;;
  match udev with
  | Some d => usb_put_dev d
  | None => ret tt
  end ;;
  modify (set_udev None) ;;
  pr_info ("xonar-ae: unloaded" ++ nl).

End Xonar.

(** ** Entry points *)

(** What the operator does to a loaded module: write the [output]
    parameter or read it. *)
Inductive request : Type :=
| Write (val : string)
| Read.

(** Everything the kernel may call into. *)
Inductive entry : Type :=
| Init
| Exit
| Param (r : request).

Inductive outcome : Type :=
| Status (r : Z)
| Text (r : Z) (buf : string)
| Done.

Section Calls.

Context {env : Type} {H : Host env}.

Local Abbreviation M := (@M env).

Definition serve (r : request) : M outcome :=
  match r with
  | Write val => r <- output_set val ;; ret (Status r)
  | Read => ' (n, buf) <- output_get ;; ret (Text n buf)
  end.

Definition enter (c : entry) : M outcome :=
  match c with
  | Init => r <- xonar_ae_init ;; ret (Status r)
  | Exit => xonar_ae_exit ;; ret Done
  | Param r => serve r
  end.

Fixpoint run (cs : list entry) : M (list outcome) :=
  match cs with
  | [] => ret []
  | c :: rest => o <- enter c ;; os <- run rest ;; ret (o :: os)
  end.

End Calls.

(** ** Vocabulary of the specification *)

(** Two C strings agree up to one trailing newline. *)
Definition same_line (a b : string) : Prop :=
  a = b \/ a = (b ++ nl)%string \/ b = (a ++ nl)%string.

(** The tokens that select the speakers, and those that select the
    headphones: the keyword or the digit, with or without the newline
    a shell appends. *)
Definition speakers_tokens : list string :=
  ["speakers"; "speakers" ++ nl; "1"; "1" ++ nl]%string.

Definition headphones_tokens : list string :=
  ["headphones"; "headphones" ++ nl; "0"; "0" ++ nl]%string.

(** Comparison that ignores the case of ASCII letters. *)
Definition lower (c : ascii) : ascii :=
  let n := nat_of_ascii c in
  if ((65 <=? n) && (n <=? 90))%nat then ascii_of_nat (n + 32) else c.

Fixpoint lower_string (s : string) : string :=
  match s with
  | EmptyString => EmptyString
  | String c r => String (lower c) (lower_string r)
  end.

Definition ci_eq (a b : string) : bool :=
  String.eqb (lower_string a) (lower_string b).

(** The selection a token stands for when tokens are compared without
    regard to case. *)
Definition ci_token (t : string) : option Z :=
  if ci_eq t "speakers" || ci_eq t "1" then Some 1
  else if ci_eq t "headphones" || ci_eq t "0" then Some 0
  else None.

(** The cache holds Speakers, Headphones or Unknown. *)
Definition tri_state (v : Z) : Prop := v = 1 \/ v = 0 \/ v = -1.

(** The line shown for a cached selection. *)
Definition render (v : Z) : string :=
  if v =? 1 then ("speakers" ++ nl)%string
  else if v =? 0 then ("headphones" ++ nl)%string
  else ("unknown" ++ nl)%string.

(** The four lines a read can show. *)
Definition read_lines : list string :=
  ["speakers" ++ nl; "headphones" ++ nl; "unknown" ++ nl;
   "disconnected" ++ nl]%string.

(** A device is the card when both identifiers are the card's. *)
Definition is_xonar (d : usb_device) : Prop :=
  idVendor d = 0x0B05 /\ idProduct d = 0x180F.

(** The output-select write, in numbers: SET CUR, class request to an
    interface, host to device, selector 8 in the high byte of wValue,
    entity 7 in the high byte of wIndex. *)
Definition select_request (udev : usb_device) (speakers : bool) : control_msg :=
  {| cm_dev := udev; cm_pipe := usb_sndctrlpipe udev 0;
     cm_request := 0x01; cm_requesttype := 0x21;
     cm_value := 0x0800; cm_index := 0x0700;
     cm_data := [if speakers then x01 else x02; x03];
     cm_size := 2; cm_timeout := 1000 |}.

(** The connector-status read on the six bytes of [buf]. *)
Definition status_request (udev : usb_device) (buf : list byte) : control_msg :=
  {| cm_dev := udev; cm_pipe := usb_rcvctrlpipe udev 0;
     cm_request := 0x01; cm_requesttype := 0xA1;
     cm_value := 0x0200; cm_index := 0x0700;
     cm_data := buf; cm_size := 6; cm_timeout := 1000 |}.

Definition is_send (p : usb_pipe) : bool :=
  match p with
  | usb_sndctrlpipe _ _ => true
  | usb_rcvctrlpipe _ _ => false
  end.

(** A transport that always succeeds and echoes the last write.
    [tracks e last] relates a host state to the selection written last
    ([None] before any write); it is kept by every call, no allocation
    and no transfer fails, a write records whether its select byte is
    0x01, and a read after a write reports eight channels exactly when
    that write selected the speakers. *)
Record echoing {env : Type} {H : Host env}
    (tracks : env -> option bool -> Prop) : Prop := {
  echo_alloc : forall e last n,
    tracks e last ->
    exists block e', host_kmalloc e n = (Some block, e') /\ tracks e' last;
  echo_write : forall e last m,
    tracks e last -> is_send (cm_pipe m) = true ->
    exists r reply e',
      host_control_msg e m = ((r, reply), e') /\ 0 <= r /\
      tracks e' (Some (Byte.eqb (buf_load (cm_data m) 0) x01));
  echo_read : forall e sel m,
    tracks e (Some sel) -> is_send (cm_pipe m) = false ->
    exists r count rest e',
      host_control_msg e m = ((r, count :: rest), e') /\ 0 <= r /\
      (count = x08 <-> sel = true) /\ tracks e' (Some sel)
}.

(** ** Hosts to run the module on *)

(** A bench host: a fixed set of attached devices, an allocator that
    either always or never delivers, and a script of transfer outcomes
    played in order; once the script is over every transfer times out
    ([-ETIMEDOUT]). *)
Module Bench.

Record bench : Type := {
  attached : list usb_device;
  heap_ok : bool;
  script : list (Z * list byte)
}.

Definition ETIMEDOUT : Z := 110.

#[global] Instance bench_host : Host bench := {
  host_devices := attached;
  host_kmalloc e _ := (if heap_ok e then Some (fun _ => x00) else None, e);
  host_control_msg e _ :=
    match script e with
    | [] => ((- ETIMEDOUT, []), e)
    | outcome :: rest =>
        (outcome, {| attached := attached e; heap_ok := heap_ok e;
                     script := rest |})
    end
}.

Definition xonar_ae : usb_device :=
  {| devnum := 5; idVendor := 0x0B05; idProduct := 0x180F |}.

Definition hub : usb_device :=
  {| devnum := 1; idVendor := 0x1D6B; idProduct := 0x0002 |}.

(** Card attached, every transfer times out. *)
Definition dead_link : bench :=
  {| attached := [hub; xonar_ae]; heap_ok := true; script := [] |}.

(** Card attached, one status reply with eight channels, then
    time-outs. *)
Definition one_reply : bench :=
  {| attached := [hub; xonar_ae]; heap_ok := true;
     script := [(6, [x08; x00; x00; x00; x00; x00])] |}.

(** No card on the bus. *)
Definition no_card : bench :=
  {| attached := [hub]; heap_ok := true; script := [] |}.

(** A loaded module holding the card, cache at [cur]. *)
Definition holding (e : bench) (cur : Z) : kstate :=
  {| xonar_udev := Some xonar_ae; current_output := cur; host := e;
     klog := [] |}.

End Bench.

(** A card that obeys: every allocation and every transfer succeeds,
    and the channel count it reports is 8 after a speakers write and 2
    otherwise.  The host state is the select byte written last. *)
Module Echo.

#[global] Instance echo_host : Host byte := {
  host_devices _ := [Bench.xonar_ae];
  host_kmalloc e _ := (Some (fun _ => x00), e);
  host_control_msg e m :=
    match cm_pipe m with
    | usb_sndctrlpipe _ _ =>
        ((Z.max 0 (cm_size m), []), buf_load (cm_data m) 0)
    | usb_rcvctrlpipe _ _ =>
        ((Z.max 0 (cm_size m),
          [if Byte.eqb e x01 then x08 else x02; x00; x00; x00; x00; x00]),
         e)
    end
}.

(** The select byte kept by the host is the one of the selection
    written last. *)
Definition tracks (e : byte) (last : option bool) : Prop :=
  match last with
  | None => True
  | Some sel => Byte.eqb e x01 = sel
  end.

(** A loaded module holding the card, cache at [cur], the card
    having last been sent the select byte [e]. *)
Definition holding (e : byte) (cur : Z) : kstate :=
  {| xonar_udev := Some Bench.xonar_ae; current_output := cur; host := e;
     klog := [] |}.

End Echo.

(** ** Reading the log *)

(** The control transfers of a log, oldest first. *)
Fixpoint transfers (l : list event) : list control_msg :=
  match l with
  | [] => []
  | EvControlMsg m :: rest => m :: transfers rest
  | _ :: rest => transfers rest
  end.

(** Lock discipline over a stretch of log, [held] telling whether
    [xonar_mutex] is held where the stretch begins: the mutex is taken
    only when free and released only when held, a control transfer is
    made only with the mutex held, and the stretch ends with the mutex
    free. *)
Fixpoint serialized (held : bool) (l : list event) : bool :=
  match l with
  | [] => negb held
  | EvMutexLock :: rest => negb held && serialized true rest
  | EvMutexUnlock :: rest => held && serialized false rest
  | EvControlMsg _ :: rest => held && serialized held rest
  | _ :: rest => serialized held rest
  end.

(** References taken with [usb_get_dev] less those dropped with
    [usb_put_dev]. *)
Fixpoint references (l : list event) : Z :=
  match l with
  | [] => 0
  | EvGetDev _ :: rest => 1 + references rest
  | EvPutDev _ :: rest => references rest - 1
  | _ :: rest => references rest
  end.

(** Further bench set-ups. *)
Module Rig.

Import Bench.

Definition second_card : usb_device :=
  {| devnum := 9; idVendor := 0x0B05; idProduct := 0x180F |}.

(** Two cards behind the hub. *)
Definition two_cards : bench :=
  {| attached := [hub; xonar_ae; second_card]; heap_ok := true;
     script := [] |}.

(** Card attached, allocator out of memory. *)
Definition no_heap : bench :=
  {| attached := [hub; xonar_ae]; heap_ok := false; script := [(2, [])] |}.

(** Card attached, one transfer that succeeds without carrying a
    byte back, then time-outs. *)
Definition one_empty_success : bench :=
  {| attached := [hub; xonar_ae]; heap_ok := true; script := [(2, [])] |}.

(** Card attached, one status reply with two channels, then
    time-outs. *)
Definition two_channels : bench :=
  {| attached := [hub; xonar_ae]; heap_ok := true;
     script := [(6, [x02; x00; x00; x00; x00; x00])] |}.

End Rig.

(** ** Token comparison *)

Section Tokens.

Lemma is_nul_spec (c : ascii) : reflect (c = Ascii.zero) (is_nul c).
Proof. unfold is_nul. apply Ascii.eqb_spec. Qed.

Lemma cstr_empty (s : string) :
  cstr s = EmptyString <-> is_nul (deref s) = true.
Proof.
  destruct s as [|c r]; simpl.
  - split; reflexivity.
  - destruct (is_nul c); split; intro E; try reflexivity; discriminate.
Qed.

Lemma cstr_cons (c : ascii) (r : string) :
  is_nul c = false -> cstr (String c r) = String c (cstr r).
Proof. intro E. simpl. rewrite E. reflexivity. Qed.

Lemma cstr_head (s : string) (c : ascii) (r : string) :
  cstr s = String c r ->
  exists r', s = String c r' /\ is_nul c = false /\ r = cstr r'.
Proof.
  destruct s as [|c' r']; simpl; [discriminate|].
  destruct (is_nul c') eqn:E; [discriminate|].
  intro E'. injection E' as -> <-. eauto.
Qed.

Lemma is_nul_false (c : ascii) : c <> Ascii.zero -> is_nul c = false.
Proof. intro N. destruct (is_nul_spec c); [contradiction|reflexivity]. Qed.

Lemma app_nl_nonempty (a : string) : (a ++ nl)%string <> EmptyString.
Proof. destruct a; discriminate. Qed.

Lemma sysfs_streq_tail_spec (s1 s2 : string) :
  (is_nul (deref s1) = true \/ deref s1 <> deref s2) ->
  sysfs_streq_tail s1 s2 = true <-> same_line (cstr s1) (cstr s2).
Proof.
  intro Stop. unfold sysfs_streq_tail, same_line.
  destruct (Ascii.eqb_spec (deref s1) (deref s2)) as [E|N].
  - (* the loop stopped on two NULs *)
    destruct Stop as [Z1|]; [|contradiction].
    assert (Z2 : is_nul (deref s2) = true) by (rewrite <- E; exact Z1).
    apply cstr_empty in Z1, Z2. rewrite Z1, Z2. tauto.
  - clear Stop.
    destruct (is_nul (deref s1)) eqn:Z1; cbn [andb].
    + (* [s1] is used up, [s2] is not *)
      pose proof Z1 as E1. apply cstr_empty in E1. rewrite E1.
      destruct (is_nul_spec (deref s1)) as [Z|]; [|discriminate].
      rewrite Z in *. 
      destruct s2 as [|c2 r2]; cbn [deref next cstr] in *; [congruence|].
      rewrite (is_nul_false c2) by congruence.
      replace (Ascii.eqb Ascii.zero newline) with false by reflexivity.
      cbn [andb].
      destruct (Ascii.eqb_spec c2 newline) as [->|N2]; cbn [andb].
      * destruct (is_nul (deref r2)) eqn:Z3.
        -- apply cstr_empty in Z3. rewrite Z3. split; auto.
        -- split; [discriminate|].
           intros [E|[E|E]]; try discriminate.
           injection E as E. apply cstr_empty in E. congruence.
      * split; [discriminate|].
        intros [E|[E|E]]; try discriminate.
        injection E as E _. contradiction.
    + (* [s1] stopped at a character [s2] does not have *)
      destruct s1 as [|c1 r1]; cbn [deref next] in *; [discriminate|].
      rewrite (cstr_cons c1 r1 Z1).
      destruct (is_nul (deref s2)) eqn:Z2.
      * apply cstr_empty in Z2. rewrite Z2. cbn [append].
        rewrite andb_true_r.
        destruct (Ascii.eqb_spec c1 newline) as [->|N1]; cbn [andb].
        -- destruct (is_nul (deref r1)) eqn:Z3.
           ++ apply cstr_empty in Z3. rewrite Z3. split; auto.
           ++ split; [discriminate|].
              intros [E|[E|E]]; try discriminate.
              injection E as E. apply cstr_empty in E. congruence.
        -- split; [discriminate|].
           intros [E|[E|E]]; try discriminate.
           injection E as E _. contradiction.
      * rewrite andb_false_r.
        destruct s2 as [|c2 r2]; cbn [deref] in *; [discriminate|].
        rewrite (cstr_cons c2 r2 Z2). cbn [append].
        split; [discriminate|].
        intros [E|[E|E]]; injection E as E _; congruence.
Qed.

(** [sysfs_streq] holds exactly of two C strings that agree up to
    one trailing newline. *)
Lemma sysfs_streq_spec (s1 s2 : string) :
  sysfs_streq s1 s2 = true <-> same_line (cstr s1) (cstr s2).
Proof.
  revert s2. induction s1 as [|c r1 IH]; intro s2; cbn [sysfs_streq].
  - apply sysfs_streq_tail_spec. left. reflexivity.
  - destruct (is_nul c) eqn:Z1; cbn [negb andb].
    + apply sysfs_streq_tail_spec. left. exact Z1.
    + destruct (Ascii.eqb_spec c (deref s2)) as [E|N].
      * destruct s2 as [|c2 r2]; cbn [deref next] in *.
        { subst c. discriminate Z1. }
        subst c2. rewrite IH, !cstr_cons by assumption.
        unfold same_line. cbn [append].
        split; (intros [E|[E|E]];
                [left | right; left | right; right]; congruence).
      * apply sysfs_streq_tail_spec. right. exact N.
Qed.

Lemma last_of_app_nl (a : string) :
  String.get (String.length a) (a ++ nl) = Some newline.
Proof. induction a as [|c a IH]; [reflexivity | exact IH]. Qed.

Lemma length_app_nl (a : string) :
  String.length (a ++ nl) = S (String.length a).
Proof. induction a as [|c a IH]; cbn; [reflexivity | now rewrite IH]. Qed.

Lemma ends_with_nl (k a : string) :
  k = (a ++ nl)%string ->
  String.get (pred (String.length k)) k = Some newline.
Proof. intros ->. rewrite length_app_nl. apply last_of_app_nl. Qed.

(** Against a keyword, which has no NUL and no newline at its end,
    only the keyword itself and the keyword with a newline pass. *)
Lemma sysfs_streq_keyword (t k : string) :
  cstr k = k ->
  String.get (pred (String.length k)) k <> Some newline ->
  sysfs_streq t k = true <->
  cstr t = k \/ cstr t = (k ++ nl)%string.
Proof.
  intros Ck Nk. rewrite sysfs_streq_spec, Ck. unfold same_line.
  split; [|tauto].
  intros [E|[E|E]]; auto.
  exfalso. apply Nk. exact (ends_with_nl _ _ E).
Qed.

Ltac keyword := first [reflexivity | cbn; discriminate].

Ltac token_cases :=
  repeat match goal with
  | E : sysfs_streq _ _ = true |- _ =>
      apply sysfs_streq_keyword in E; [| keyword | keyword]
  | E : sysfs_streq ?t ?k = false |- _ =>
      let N := fresh "N" in
      assert (N : ~ (cstr t = k \/ cstr t = (k ++ nl)%string))
        by (rewrite <- sysfs_streq_keyword; [congruence | keyword | keyword]);
      clear E
  end.

Ltac token_finish :=
  unfold nl in *; cbn [append In] in *;
  split; intro;
  repeat match goal with
  | D : _ \/ _ |- _ => destruct D
  | N : ~ _ |- _ => apply Decidable.not_or in N; destruct N
  end;
  try contradiction; try congruence; auto 10.

Lemma output_token_speakers (t : string) :
  output_token t = Some 1 <-> In (cstr t) speakers_tokens.
Proof.
  unfold output_token, speakers_tokens.
  destruct (sysfs_streq t "speakers") eqn:E1;
    destruct (sysfs_streq t "1") eqn:E2;
    destruct (sysfs_streq t "headphones") eqn:E3;
    destruct (sysfs_streq t "0") eqn:E4;
    cbn [orb]; token_cases; token_finish.
Qed.

Lemma output_token_headphones (t : string) :
  output_token t = Some 0 <-> In (cstr t) headphones_tokens.
Proof.
  unfold output_token, headphones_tokens.
  destruct (sysfs_streq t "speakers") eqn:E1;
    destruct (sysfs_streq t "1") eqn:E2;
    destruct (sysfs_streq t "headphones") eqn:E3;
    destruct (sysfs_streq t "0") eqn:E4;
    cbn [orb]; token_cases; token_finish.
Qed.

Lemma output_token_none (t : string) :
  output_token t = None <->
  ~ In (cstr t) (speakers_tokens ++ headphones_tokens).
Proof.
  rewrite in_app_iff, <- output_token_speakers, <- output_token_headphones.
  unfold output_token.
  destruct (_ || _); [split; [discriminate | intro N; exfalso; apply N; auto]|].
  destruct (_ || _); [split; [discriminate | intro N; exfalso; apply N; auto]|].
  split; [intros _ [E|E]; discriminate E | reflexivity].
Qed.

End Tokens.

(** ** The two transfers *)

Ltac unfold_prims :=
  unfold kmalloc, kfree, usb_control_msg, mutex_lock, mutex_unlock,
    pr_info, pr_err, usb_get_dev, usb_put_dev, bind, ret, gets, modify in *.

Ltac host_step :=
  match goal with
  | |- context [host_kmalloc ?e ?n] =>
      let block := fresh "block" in
      let e' := fresh "e" in
      destruct (host_kmalloc e n) as [[block|] e'] eqn:?
  | |- context [host_control_msg ?e ?m] =>
      let r := fresh "r" in
      let reply := fresh "reply" in
      let e' := fresh "e" in
      destruct (host_control_msg e m) as [[r reply] e'] eqn:?
  end.

Section Transfers.

Context {env : Type} {H : Host env}.

Implicit Types (s : @kstate env) (udev : usb_device).

(** Neither transfer routine writes a global. *)
Lemma xonar_switch_frame udev speakers s :
  xonar_udev (snd (xonar_switch udev speakers s)) = xonar_udev s /\
  current_output (snd (xonar_switch udev speakers s)) = current_output s.
Proof.
  unfold xonar_switch. unfold_prims.
  host_step; cbn; [host_step; cbn|]; auto.
Qed.

Lemma xonar_get_status_frame udev s :
  xonar_udev (snd (xonar_get_status udev s)) = xonar_udev s /\
  current_output (snd (xonar_get_status udev s)) = current_output s.
Proof.
  unfold xonar_get_status. unfold_prims.
  host_step; cbn; [host_step; cbn; destruct (_ <? 0); cbn|]; auto.
Qed.

(** A status is an error, 0 or 1. *)
Lemma xonar_get_status_range udev s :
  fst (xonar_get_status udev s) < 0 \/
  fst (xonar_get_status udev s) = 0 \/
  fst (xonar_get_status udev s) = 1.
Proof.
  unfold xonar_get_status. unfold_prims.
  host_step; cbn; [host_step; cbn|left; reflexivity].
  destruct (Z.ltb_spec r 0); cbn; [left; assumption|].
  right. destruct (Byte.eqb _ _); auto.
Qed.

(** C7. For either selection, once the two-byte block is obtained,
    [xonar_switch] makes exactly one call to the host: a control
    transfer on the send pipe of endpoint 0 (host to device) with
    request code 0x01, control selector 0x08 in the high byte of
    wValue, entity 7 in the high byte of wIndex, the payload
    [0x01, 0x03] for the speakers and [0x02, 0x03] for the
    headphones, length 2 and a timeout of 1000 ms. *)
Theorem xonar_switch_request udev (speakers : bool) s block e1 :
  host_kmalloc (host s) 2 = (Some block, e1) ->
  klog (snd (xonar_switch udev (Z.b2z speakers) s))
    = klog s ++ [EvControlMsg (select_request udev speakers)]
  /\ cm_data (select_request udev speakers)
     = (if speakers then [x01; x03] else [x02; x03])
  /\ Z.land (cm_requesttype (select_request udev speakers)) USB_DIR_IN = 0
  /\ Z.shiftr (cm_value (select_request udev speakers)) 8 = 0x08
  /\ Z.shiftr (cm_index (select_request udev speakers)) 8 = 7.
Proof.
  intro A. unfold xonar_switch. unfold_prims. rewrite A. cbn.
  host_step. cbn.
  destruct speakers; repeat split; reflexivity.
Qed.

(** C6. Once the six-byte block is obtained and the status transfer
    has returned [r] with the device's bytes [reply]:
    a negative [r] is returned as it is; otherwise byte 0 of the
    reply is the channel count, and the result is 1 (speakers) when
    it is 8 and 0 (headphones) for every other value. *)
Theorem xonar_get_status_decodes udev s block e1 r reply e2 :
  host_kmalloc (host s) 6 = (Some block, e1) ->
  host_control_msg e1 (status_request udev (map block (seq 0 6)))
    = ((r, reply), e2) ->
  (r < 0 -> fst (xonar_get_status udev s) = r) /\
  (0 <= r -> forall count rest, reply = count :: rest ->
     (count = x08 -> fst (xonar_get_status udev s) = 1) /\
     (count <> x08 -> fst (xonar_get_status udev s) = 0)).
Proof.
  intros A T. unfold xonar_get_status. unfold_prims. rewrite A.
  cbn -[seq]. unfold status_request in T. 
  change (Z.lor (Z.lor USB_TYPE_CLASS USB_RECIP_INTERFACE) USB_DIR_IN) with 0xA1.
  change (Z.shiftl XONAR_CONNECTOR_CS 8) with 0x0200.
  change (Z.lor (Z.shiftl XONAR_OT7_ID 8) 0) with 0x0700.
  change UAC2_CS_CUR with 0x01.
  rewrite T.
  split.
  - intro N. destruct (Z.ltb_spec r 0); [reflexivity | lia].
  - intros P count rest ->. destruct (Z.ltb_spec r 0); [lia|].
    cbn. destruct (Byte.eqb count x08) eqn:E.
    + apply Byte.byte_dec_bl in E. split; [reflexivity | congruence].
    + apply Byte.eqb_false in E. split; [congruence | reflexivity].
Qed.

End Transfers.

(** ** The [output] parameter *)

Section OutputParam.

Context {env : Type} {H : Host env}.

Implicit Types (s : @kstate env) (udev : usb_device).

(** The critical section of a write whose transfer fails: the error
    comes back as it is and the cache is not written. *)
Lemma output_set_locked_failure udev speakers s r s1 :
  xonar_switch udev speakers (log EvMutexLock s) = (r, s1) ->
  r < 0 ->
  fst (output_set_locked udev speakers s) = r /\
  current_output (snd (output_set_locked udev speakers s))
    = current_output s.
Proof.
  intros X N.
  pose proof (xonar_switch_frame udev speakers (log EvMutexLock s)) as [_ F].
  rewrite X in F. cbn [snd] in F.
  unfold output_set_locked, mutex_lock, mutex_unlock, bind, modify, ret.
  rewrite X.
  destruct (Z.geb_spec r 0); [lia|].
  destruct (Z.ltb_spec r 0); [|lia].
  cbn. split; [reflexivity | exact F].
Qed.

(** A read whose transfer fails: the cache is not written and the
    line shown is the one of the value cached before. *)
Lemma output_get_failure udev s status s1 :
  xonar_udev s = Some udev ->
  xonar_get_status udev (log EvMutexLock s) = (status, s1) ->
  status < 0 ->
  current_output (snd (output_get s)) = current_output s /\
  fst (output_get s) = sprintf (render (current_output s)).
Proof.
  intros D X N.
  pose proof (xonar_get_status_frame udev (log EvMutexLock s)) as [_ F].
  rewrite X in F. cbn [snd] in F.
  unfold output_get, mutex_lock, mutex_unlock, bind, modify, ret, gets.
  rewrite D, X.
  destruct (Z.geb_spec status 0); [lia|].
  change (current_output (log EvMutexLock s)) with (current_output s) in F.
  change (current_output (log EvMutexUnlock s1)) with (current_output s1).
  rewrite F. unfold render.
  destruct (current_output s =? 1); [split; [exact F | reflexivity]|].
  destruct (current_output s =? 0); split; solve [exact F | reflexivity].
Qed.

Lemma output_set_no_handle (val : string) s :
  xonar_udev s = None -> output_set val s = (- ENODEV, s).
Proof. intro D. unfold output_set, bind, gets, ret. rewrite D. reflexivity. Qed.

Lemma output_get_no_handle s :
  xonar_udev s = None ->
  output_get s = ((13, ("disconnected" ++ nl)%string), s).
Proof. intro D. unfold output_get, bind, gets, ret. rewrite D. reflexivity. Qed.

(** C8. With no device handle, a read shows "disconnected" and a
    write is refused with -ENODEV whatever the token; both leave
    the whole state as it was, the log of transfers included. *)
Theorem no_device_no_transfer s (val : string) :
  xonar_udev s = None ->
  output_get s = ((13, ("disconnected" ++ nl)%string), s) /\
  output_set val s = (- ENODEV, s).
Proof.
  intro D. split.
  - exact (output_get_no_handle s D).
  - exact (output_set_no_handle val s D).
Qed.

(** C1, as the code has it. With a device handle, a token whose
    characters are "speakers" or "1", alone or followed by one
    newline, enters the critical section with the speakers selected;
    "headphones" or "0", alone or followed by one newline, enters it
    with the headphones selected; every other token, a keyword in
    another case included, is refused with -EINVAL and the whole
    state, cache and transfer log included, is as it was. *)
Theorem output_set_tokens s udev (t : string) :
  xonar_udev s = Some udev ->
  (In (cstr t) speakers_tokens ->
     output_set t s = output_set_locked udev 1 s) /\
  (In (cstr t) headphones_tokens ->
     output_set t s = output_set_locked udev 0 s) /\
  (~ In (cstr t) (speakers_tokens ++ headphones_tokens) ->
     output_set t s = (- EINVAL, s)).
Proof.
  intro D. unfold output_set, bind, gets. rewrite D.
  repeat split; intro T.
  - apply output_token_speakers in T. rewrite T. reflexivity.
  - apply output_token_headphones in T. rewrite T. reflexivity.
  - apply output_token_none in T. rewrite T. reflexivity.
Qed.

(** C4. For every cached value and every token the write accepts,
    when the transfer made in the critical section fails with [r],
    the write returns [r] itself and the cache holds what it held
    before the call. *)
Theorem output_set_failure_keeps_cache s udev (t : string) speakers r s1 :
  xonar_udev s = Some udev ->
  output_token t = Some speakers ->
  xonar_switch udev speakers (log EvMutexLock s) = (r, s1) ->
  r < 0 ->
  fst (output_set t s) = r /\
  current_output (snd (output_set t s)) = current_output s.
Proof.
  intros D T X N. unfold output_set, bind, gets. rewrite D, T.
  exact (output_set_locked_failure udev speakers s r s1 X N).
Qed.

(** C5. For every cached value, when a device handle exists and the
    status transfer of a read fails, the read still answers: it
    returns the positive length of a line, the line is the one of
    the value cached before the call, the cache is not written, and
    the line is "unknown" only if the cache held neither Speakers
    nor Headphones before. *)
Theorem output_get_failure_shows_cache s udev status s1 :
  xonar_udev s = Some udev ->
  xonar_get_status udev (log EvMutexLock s) = (status, s1) ->
  status < 0 ->
  current_output (snd (output_get s)) = current_output s /\
  snd (fst (output_get s)) = render (current_output s) /\
  0 < fst (fst (output_get s)) /\
  (snd (fst (output_get s)) = ("unknown" ++ nl)%string ->
     current_output s <> 1 /\ current_output s <> 0).
Proof.
  intros D X N.
  destruct (output_get_failure udev s status s1 D X N) as [F R].
  rewrite R. cbn [fst snd sprintf]. split; [exact F|].
  split; [reflexivity|]. unfold render.
  destruct (Z.eqb_spec (current_output s) 1);
    [repeat split; try discriminate; reflexivity|].
  destruct (Z.eqb_spec (current_output s) 0);
    repeat split; try discriminate; try reflexivity; assumption.
Qed.

End OutputParam.

(** ** Write, then read, on an echoing transport *)

Section RoundTrip.

Context {env : Type} {H : Host env}.
Variable tracks : env -> option bool -> Prop.
Hypothesis echo : echoing tracks.

Implicit Types (s : @kstate env) (udev : usb_device).

Lemma xonar_switch_echo udev (sel : bool) s last :
  tracks (host s) last ->
  exists r s1,
    xonar_switch udev (Z.b2z sel) s = (r, s1) /\ 0 <= r /\
    tracks (host s1) (Some sel) /\ xonar_udev s1 = xonar_udev s.
Proof.
  intro T. unfold xonar_switch. unfold_prims.
  destruct (echo_alloc tracks echo _ _ 2%nat T) as (block & e1 & A & T1).
  rewrite A. cbn.
  match goal with
  | |- context [host_control_msg e1 ?m] =>
      destruct (echo_write tracks echo e1 last m T1 eq_refl)
        as (r & reply & e2 & W & P & T2)
  end.
  rewrite W. cbn. exists r. eexists. split; [reflexivity|].
  split; [exact P|]. split; [|reflexivity].
  cbn. cbn in T2. destruct sel; exact T2.
Qed.

Lemma xonar_get_status_echo udev (sel : bool) s :
  tracks (host s) (Some sel) ->
  exists s1,
    xonar_get_status udev s = (Z.b2z sel, s1) /\
    xonar_udev s1 = xonar_udev s.
Proof.
  intro T. unfold xonar_get_status. unfold_prims.
  destruct (echo_alloc tracks echo _ _ 6%nat T) as (block & e1 & A & T1).
  rewrite A. cbn -[seq].
  match goal with
  | |- context [host_control_msg e1 ?m] =>
      destruct (echo_read tracks echo e1 sel m T1 eq_refl)
        as (r & count & rest & e2 & R & P & C & T2)
  end.
  rewrite R. destruct (Z.ltb_spec r 0); [lia|]. cbn.
  assert (E : (if Byte.eqb count x08 then 1 else 0) = Z.b2z sel).
  { destruct (Byte.eqb count x08) eqn:E.
    - apply Byte.byte_dec_bl in E. apply C in E. subst sel. reflexivity.
    - apply Byte.eqb_false in E. destruct sel; [|reflexivity].
      exfalso. apply E, C. reflexivity. }
  rewrite E. eexists. split; reflexivity.
Qed.

(** A write of selection [sel] through the critical section, then a
    read. *)
Lemma locked_write_then_read udev (sel : bool) s last :
  xonar_udev s = Some udev ->
  tracks (host s) last ->
  fst (output_set_locked udev (Z.b2z sel) s) = 0 /\
  snd (fst (output_get (snd (output_set_locked udev (Z.b2z sel) s))))
    = render (Z.b2z sel).
Proof.
  intros D T.
  destruct (xonar_switch_echo udev sel (log EvMutexLock s) last T)
    as (r & s1 & X & P & T1 & D1).
  unfold output_set_locked, mutex_lock, mutex_unlock, pr_info, bind,
    modify, ret.
  rewrite X.
  destruct (Z.geb_spec r 0); [|lia]. destruct (Z.ltb_spec r 0); [lia|].
  cbn [fst snd]. split; [reflexivity|].
  set (s2 := log EvMutexUnlock _).
  assert (D2 : xonar_udev s2 = Some udev) by (cbn; rewrite D1; exact D).
  assert (T2 : tracks (host (log EvMutexLock s2)) (Some sel)) by exact T1.
  destruct (xonar_get_status_echo udev sel _ T2) as (s3 & G & _).
  unfold output_get, mutex_lock, mutex_unlock, bind, modify, ret, gets.
  rewrite D2, G. destruct sel; reflexivity.
Qed.

(** C9. On a transport that always succeeds and echoes the last
    write, with a device handle: a write of "speakers" or "1" (with
    or without the newline) succeeds and the read that follows
    shows "speakers"; a write of "headphones" or "0" succeeds and
    the read that follows shows "headphones". *)
Theorem write_then_read udev s last (t : string) :
  xonar_udev s = Some udev ->
  tracks (host s) last ->
  (In (cstr t) speakers_tokens ->
     fst (output_set t s) = 0 /\
     snd (fst (output_get (snd (output_set t s))))
       = ("speakers" ++ nl)%string) /\
  (In (cstr t) headphones_tokens ->
     fst (output_set t s) = 0 /\
     snd (fst (output_get (snd (output_set t s))))
       = ("headphones" ++ nl)%string).
Proof.
  intros D T. split; intro K.
  - apply output_token_speakers in K.
    unfold output_set, bind, gets. rewrite D, K.
    exact (locked_write_then_read udev true s last D T).
  - apply output_token_headphones in K.
    unfold output_set, bind, gets. rewrite D, K.
    exact (locked_write_then_read udev false s last D T).
Qed.

End RoundTrip.

(** ** Load, unload and the cache *)

Section Lifecycle.

Context {env : Type} {H : Host env}.

Implicit Types (s : @kstate env) (udev : usb_device).

Lemma match_xonar_other d (found : option usb_device) s :
  ~ is_xonar d -> match_xonar d found s = ((0, found), s).
Proof.
  intro N. unfold match_xonar, le16_to_cpu.
  destruct (Z.eqb_spec (idVendor d) XONAR_VENDOR_ID) as [V|]; [|reflexivity].
  destruct (Z.eqb_spec (idProduct d) XONAR_PRODUCT_ID) as [P|]; [|reflexivity].
  exfalso. apply N. split; assumption.
Qed.

Lemma for_each_dev_no_card devs s :
  (forall d, In d devs -> ~ is_xonar d) ->
  for_each_dev devs None match_xonar s = ((0, None), s).
Proof.
  induction devs as [|d rest IH]; intro N; cbn [for_each_dev].
  - reflexivity.
  - unfold bind. rewrite match_xonar_other by (apply N; left; reflexivity).
    cbn. apply IH. intros d' I. apply N. right. exact I.
Qed.

Lemma find_xonar_no_card s :
  (forall d, In d (host_devices (host s)) -> ~ is_xonar d) ->
  find_xonar s = (None, s).
Proof.
  intro N. unfold find_xonar, usb_for_each_dev, bind, gets.
  rewrite (for_each_dev_no_card _ s N). reflexivity.
Qed.

(** The scan of the bus writes no global. *)
Lemma for_each_dev_frame devs (found : option usb_device) s :
  current_output (snd (for_each_dev devs found match_xonar s))
    = current_output s.
Proof.
  revert found s. induction devs as [|d rest IH]; intros found s;
    cbn [for_each_dev]; [reflexivity|].
  unfold bind, match_xonar, usb_get_dev, ret.
  destruct (_ && _); cbn; [reflexivity | apply IH].
Qed.

Lemma find_xonar_frame s :
  current_output (snd (find_xonar s)) = current_output s.
Proof.
  unfold find_xonar, usb_for_each_dev, bind, gets, ret.
  pose proof (for_each_dev_frame (host_devices (host s)) None s) as F.
  destruct (for_each_dev _ _ _ s) as [[r found] s1]. exact F.
Qed.

(** With no handle, reads and writes answer without touching
    anything, however many of them come. *)
Lemma run_without_handle (rs : list request) s :
  xonar_udev s = None ->
  run (map Param rs) s
    = (map (fun q => match q with
                     | Write _ => Status (- ENODEV)
                     | Read => Text 13 ("disconnected" ++ nl)
                     end) rs, s).
Proof.
  intro D. induction rs as [|q rs IH]; cbn [map run]; [reflexivity|].
  destruct q as [val|]; cbn [enter serve]; unfold bind, ret.
  - rewrite (output_set_no_handle val s D), IH. reflexivity.
  - rewrite (output_get_no_handle s D), IH. reflexivity.
Qed.

(** Startup with the card on the bus and a failing status transfer
    caches Unknown. *)
Lemma init_failed_status s udev s1 status s2 :
  find_xonar s = (Some udev, s1) ->
  xonar_get_status udev (set_udev (Some udev) s1) = (status, s2) ->
  status < 0 ->
  fst (xonar_ae_init s) = 0 /\
  current_output (snd (xonar_ae_init s)) = -1.
Proof.
  intros F X N. unfold xonar_ae_init, bind, modify, gets, pr_info, ret.
  rewrite F, X. destruct (Z.geb_spec status 0); [lia|].
  split; reflexivity.
Qed.

(** *** The cache only ever holds 1, 0 or -1 *)

Lemma output_set_tri_state (val : string) s :
  tri_state (current_output s) ->
  tri_state (current_output (snd (output_set val s))).
Proof.
  intro I. unfold output_set, bind, gets, ret.
  destruct (xonar_udev s) as [udev|]; [|exact I].
  assert (L : forall speakers, tri_state speakers ->
            tri_state (current_output
                         (snd (output_set_locked udev speakers s)))).
  { intros speakers B.
    unfold output_set_locked, mutex_lock, mutex_unlock, pr_info, bind,
      modify, ret.
    pose proof (xonar_switch_frame udev speakers (log EvMutexLock s))
      as [_ F].
    destruct (xonar_switch udev speakers (log EvMutexLock s)) as [r s1].
    cbn [snd] in F.
    destruct (r >=? 0); cbn; [exact B | rewrite F; exact I]. }
  unfold output_token.
  destruct (_ || _); [apply L; left; reflexivity|].
  destruct (_ || _); [apply L; right; left; reflexivity | exact I].
Qed.

Lemma status_tri_state (status : Z) :
  status < 0 \/ status = 0 \/ status = 1 ->
  0 <= status -> tri_state status.
Proof. unfold tri_state. lia. Qed.

Lemma output_get_tri_state s :
  tri_state (current_output s) ->
  tri_state (current_output (snd (output_get s))).
Proof.
  intro I. unfold output_get, mutex_lock, mutex_unlock, bind, modify,
    gets, ret.
  destruct (xonar_udev s) as [udev|]; [|exact I].
  pose proof (xonar_get_status_range udev (log EvMutexLock s)) as R.
  pose proof (xonar_get_status_frame udev (log EvMutexLock s)) as [_ F].
  destruct (xonar_get_status udev (log EvMutexLock s)) as [status s1].
  cbn [fst snd] in R, F.
  assert (I' : tri_state
                 (current_output
                    (if status >=? 0 then set_output status s1 else s1))).
  { destruct (Z.geb_spec status 0); cbn.
    - apply status_tri_state; [exact R | lia].
    - rewrite F. exact I. }
  destruct (status >=? 0); cbn in *;
    repeat match goal with
    | |- context [if ?b then _ else _] => destruct b
    end; exact I'.
Qed.

Lemma xonar_ae_init_tri_state s :
  tri_state (current_output s) ->
  tri_state (current_output (snd (xonar_ae_init s))).
Proof.
  intro I. unfold xonar_ae_init, bind, modify, gets, pr_info, pr_err, ret.
  pose proof (find_xonar_frame s) as F.
  destruct (find_xonar s) as [[udev|] s1]; cbn [snd] in F.
  - pose proof (xonar_get_status_range udev (set_udev (Some udev) s1)) as R.
    destruct (xonar_get_status udev (set_udev (Some udev) s1))
      as [status s2].
    cbn [fst] in R. cbn.
    destruct (Z.geb_spec status 0).
    + apply status_tri_state; [exact R | lia].
    + right. right. reflexivity.
  - cbn. rewrite F. exact I.
Qed.

Lemma xonar_ae_exit_tri_state s :
  tri_state (current_output s) ->
  tri_state (current_output (snd (xonar_ae_exit s))).
Proof.
  intro I. unfold xonar_ae_exit, usb_put_dev, pr_info, bind, modify,
    gets, ret.
  destruct (xonar_udev s); exact I.
Qed.

Lemma enter_tri_state (c : entry) s :
  tri_state (current_output s) ->
  tri_state (current_output (snd (enter c s))).
Proof.
  intro I. destruct c as [| |[val|]]; cbn [enter serve]; unfold bind, ret.
  - pose proof (xonar_ae_init_tri_state s I) as P.
    destruct (xonar_ae_init s); exact P.
  - pose proof (xonar_ae_exit_tri_state s I) as P.
    destruct (xonar_ae_exit s); exact P.
  - pose proof (output_set_tri_state val s I) as P.
    destruct (output_set val s); exact P.
  - pose proof (output_get_tri_state s I) as P.
    destruct (output_get s) as [[n buf] s1]; exact P.
Qed.

Lemma run_tri_state (cs : list entry) s :
  tri_state (current_output s) ->
  tri_state (current_output (snd (run cs s))).
Proof.
  revert s. induction cs as [|c cs IH]; intros s I; cbn [run].
  - exact I.
  - unfold bind, ret. pose proof (enter_tri_state c s I) as P.
    destruct (enter c s) as [o s1]. cbn [snd] in P.
    specialize (IH s1 P). destruct (run cs s1) as [os s2]. exact IH.
Qed.

Lemma output_get_lines s : In (snd (fst (output_get s))) read_lines.
Proof.
  unfold output_get, mutex_lock, mutex_unlock, bind, modify, gets, ret.
  destruct (xonar_udev s) as [udev|]; [|cbn; auto 6].
  destruct (xonar_get_status udev (log EvMutexLock s)) as [status s1].
  destruct (status >=? 0); cbn [fst snd];
    repeat match goal with
    | |- context [if ?b then _ else _] => destruct b
    end; cbn; auto 6.
Qed.

(** C2, as the code has it. When the scan at startup finds no
    matching device, [xonar_ae_init] fails with -ENODEV, so the
    module is not kept loaded; it leaves no device handle, and in
    the state it leaves every write would be refused with -ENODEV
    and every read would show "disconnected", for any sequence of
    them. *)
Theorem init_without_card s (rs : list request) :
  (forall d, In d (host_devices (host s)) -> ~ is_xonar d) ->
  fst (xonar_ae_init s) = - ENODEV /\
  xonar_udev (snd (xonar_ae_init s)) = None /\
  fst (run (map Param rs) (snd (xonar_ae_init s)))
    = map (fun q => match q with
                    | Write _ => Status (- ENODEV)
                    | Read => Text 13 ("disconnected" ++ nl)
                    end) rs.
Proof.
  intro N. unfold xonar_ae_init, bind, modify, pr_err, ret.
  rewrite (find_xonar_no_card s N). cbn [fst snd].
  split; [reflexivity|]. split; [reflexivity|].
  rewrite run_without_handle by reflexivity. reflexivity.
Qed.

(** C3, as the code has it. The cache is Unknown (-1) in the module
    image, and Unknown is what startup caches when its status
    transfer fails; a failed transfer in the write path or in the
    read path leaves in the cache the value it held before. *)
Theorem unknown_at_load_and_failed_startup :
  (forall e : env, current_output (module_image e) = -1) /\
  (forall s udev s1 status s2,
     find_xonar s = (Some udev, s1) ->
     xonar_get_status udev (set_udev (Some udev) s1) = (status, s2) ->
     status < 0 ->
     current_output (snd (xonar_ae_init s)) = -1) /\
  (forall s udev speakers r s1,
     xonar_switch udev speakers (log EvMutexLock s) = (r, s1) ->
     r < 0 ->
     current_output (snd (output_set_locked udev speakers s))
       = current_output s) /\
  (forall s udev status s1,
     xonar_udev s = Some udev ->
     xonar_get_status udev (log EvMutexLock s) = (status, s1) ->
     status < 0 ->
     current_output (snd (output_get s)) = current_output s).
Proof.
  split; [reflexivity|]. split; [|split].
  - intros s udev s1 status s2 F X N.
    exact (proj2 (init_failed_status s udev s1 status s2 F X N)).
  - intros s udev speakers r s1 X N.
    exact (proj2 (output_set_locked_failure udev speakers s r s1 X N)).
  - intros s udev status s1 D X N.
    exact (proj1 (output_get_failure udev s status s1 D X N)).
Qed.

(** C10. Whatever the host does and whatever sequence of entry
    points runs on the module image (startup, unload, writes and
    reads of the parameter), the cache then holds 1, 0 or -1, and a
    read shows one of the four lines "speakers", "headphones",
    "unknown", "disconnected". *)
Theorem current_output_three_values (e : env) (cs : list entry) :
  tri_state (current_output (module_image e)) /\
  tri_state (current_output (snd (run cs (module_image e)))) /\
  In (snd (fst (output_get (snd (run cs (module_image e)))))) read_lines.
Proof.
  assert (I : tri_state (current_output (module_image e)))
    by (right; right; reflexivity).
  split; [exact I|]. split.
  - apply run_tri_state. exact I.
  - apply output_get_lines.
Qed.

End Lifecycle.

(** ** Runs on the bench *)

Section BenchRuns.

Import Bench.

Lemma echo_host_echoing : echoing Echo.tracks.
Proof.
  constructor.
  - intros e last n T. exists (fun _ => x00), e. split; [reflexivity | exact T].
  - intros e last m T S. cbn. destruct (cm_pipe m); [|discriminate S].
    eexists _, _, _. split; [reflexivity|]. split; [lia | reflexivity].
  - intros e sel m T S. cbn. destruct (cm_pipe m); [discriminate S|].
    eexists _, _, _, _. split; [reflexivity|]. split; [lia|].
    split; [|exact T].
    cbn in T. rewrite T. destruct sel; split; intro E;
      solve [reflexivity | discriminate E].
Qed.

(** C1: the claim fails at three tokens.  "SPEAKERS" is a speakers
    token when case is ignored, yet with the card held the write is
    refused with -EINVAL.  "speakers" followed by a newline is no
    token of the claim, yet the write goes through and the cache
    moves from 0 to 1.  "stereo" is no token either, yet without a
    card the write answers -ENODEV, not -EINVAL. *)
Lemma output_set_case_sensitive :
  (ci_token "SPEAKERS" = Some 1 /\
   output_set "SPEAKERS" (holding dead_link 0)
     = (- EINVAL, holding dead_link 0)) /\
  (ci_token ("speakers" ++ nl) = None /\
   fst (output_set ("speakers" ++ nl) (holding one_reply 0)) = 0 /\
   current_output (snd (output_set ("speakers" ++ nl) (holding one_reply 0)))
     = 1) /\
  (ci_token "stereo" = None /\
   fst (output_set "stereo" (module_image no_card)) = - ENODEV /\
   - ENODEV <> - EINVAL).
Proof.
  repeat split; try reflexivity. discriminate.
Qed.

Lemma output_set_tokens_witness :
  output_set ("1" ++ nl) (holding one_reply 0)
    = output_set_locked xonar_ae 1 (holding one_reply 0) /\
  output_set "headphones" (holding one_reply 1)
    = output_set_locked xonar_ae 0 (holding one_reply 1) /\
  output_set "Headphones" (holding one_reply 1)
    = (- EINVAL, holding one_reply 1).
Proof.
  split; [|split].
  - apply (proj1 (output_set_tokens (holding one_reply 0) xonar_ae
                    ("1" ++ nl) eq_refl)).
    cbn. auto.
  - apply (proj1 (proj2 (output_set_tokens (holding one_reply 1) xonar_ae
                           "headphones" eq_refl))).
    cbn. auto.
  - apply (proj2 (proj2 (output_set_tokens (holding one_reply 1) xonar_ae
                           "Headphones" eq_refl))).
    cbn. intuition discriminate.
Defined.

(** C2: with no card on the bus the startup routine fails. *)
Lemma init_without_card_fails :
  fst (xonar_ae_init (module_image no_card)) = - ENODEV /\
  fst (xonar_ae_init (module_image no_card)) <> 0.
Proof. split; [reflexivity | discriminate]. Qed.

Lemma init_without_card_witness :
  fst (xonar_ae_init (module_image no_card)) = - ENODEV /\
  xonar_udev (snd (xonar_ae_init (module_image no_card))) = None /\
  fst (run [Param (Write "speakers"); Param Read; Param (Write "0")]
           (snd (xonar_ae_init (module_image no_card))))
    = [Status (- ENODEV); Text 13 ("disconnected" ++ nl);
       Status (- ENODEV)].
Proof.
  apply (init_without_card (module_image no_card)
           [Write "speakers"; Read; Write "0"]).
  intros d [<-|[]] [V _]. discriminate V.
Defined.

(** C3: startup reads eight channels and caches Speakers; the next
    read times out, and the cache still holds Speakers, not
    Unknown. *)
Lemma cache_survives_failed_read :
  let s1 := snd (xonar_ae_init (module_image one_reply)) in
  current_output s1 = 1 /\
  fst (xonar_get_status xonar_ae (log EvMutexLock s1)) = - ETIMEDOUT /\
  current_output (snd (output_get s1)) = 1 /\
  current_output (snd (output_get s1)) <> -1.
Proof. repeat split; try reflexivity. discriminate. Qed.

Lemma unknown_at_load_and_failed_startup_witness :
  current_output (snd (xonar_ae_init (module_image dead_link))) = -1 /\
  current_output (snd (output_set_locked xonar_ae 0 (holding dead_link 1)))
    = 1 /\
  current_output (snd (output_get (holding dead_link 0))) = 0.
Proof.
  destruct (@unknown_at_load_and_failed_startup bench bench_host)
    as (_ & Startup & Set_ & Get_).
  split; [|split].
  - exact (Startup (module_image dead_link) xonar_ae _ _ _
             (surjective_pairing _) (surjective_pairing _) eq_refl).
  - exact (Set_ (holding dead_link 1) xonar_ae 0 _ _
             (surjective_pairing _) eq_refl).
  - exact (Get_ (holding dead_link 0) xonar_ae _ _ eq_refl
             (surjective_pairing _) eq_refl).
Defined.

Lemma output_set_failure_keeps_cache_witness :
  fst (output_set "headphones" (holding dead_link 1)) = - ETIMEDOUT /\
  current_output (snd (output_set "headphones" (holding dead_link 1))) = 1.
Proof.
  exact (output_set_failure_keeps_cache (holding dead_link 1) xonar_ae
           "headphones" 0 _ _ eq_refl eq_refl (surjective_pairing _)
           eq_refl).
Defined.

Lemma output_get_failure_shows_cache_witness :
  current_output (snd (output_get (holding dead_link 1))) = 1 /\
  snd (fst (output_get (holding dead_link 1))) = render 1 /\
  0 < fst (fst (output_get (holding dead_link 1))) /\
  (snd (fst (output_get (holding dead_link 1))) = ("unknown" ++ nl)%string ->
     1 <> 1 /\ 1 <> 0).
Proof.
  exact (output_get_failure_shows_cache (holding dead_link 1) xonar_ae
           _ _ eq_refl (surjective_pairing _) eq_refl).
Defined.

Lemma xonar_get_status_decodes_witness :
  fst (xonar_get_status xonar_ae (holding one_reply (-1))) = 1.
Proof.
  refine (proj1 (proj2 (xonar_get_status_decodes xonar_ae
                          (holding one_reply (-1)) (fun _ => x00) one_reply
                          6 [x08; x00; x00; x00; x00; x00]
                          {| attached := [hub; xonar_ae]; heap_ok := true;
                             script := [] |}
                          eq_refl eq_refl)
                   _ x08 [x00; x00; x00; x00; x00] eq_refl) eq_refl).
  lia.
Defined.

Lemma xonar_switch_request_witness :
  klog (snd (xonar_switch xonar_ae 0 (holding dead_link 1)))
    = [EvControlMsg (select_request xonar_ae false)].
Proof.
  exact (proj1 (xonar_switch_request xonar_ae false (holding dead_link 1)
                  (fun _ => x00) dead_link eq_refl)).
Defined.

Lemma no_device_no_transfer_witness :
  output_get (module_image no_card)
    = ((13, ("disconnected" ++ nl)%string), module_image no_card) /\
  output_set "speakers" (module_image no_card)
    = (- ENODEV, module_image no_card).
Proof.
  exact (no_device_no_transfer (module_image no_card) "speakers" eq_refl).
Defined.

Lemma write_then_read_witness :
  (fst (output_set "1" (Echo.holding x02 0)) = 0 /\
   snd (fst (output_get (snd (output_set "1" (Echo.holding x02 0)))))
     = ("speakers" ++ nl)%string) /\
  (fst (output_set "headphones" (Echo.holding x01 1)) = 0 /\
   snd (fst (output_get (snd (output_set "headphones" (Echo.holding x01 1)))))
     = ("headphones" ++ nl)%string).
Proof.
  split.
  - apply (proj1 (write_then_read Echo.tracks echo_host_echoing xonar_ae
                    (Echo.holding x02 0) (Some false) "1"
                    eq_refl eq_refl)).
    cbn. auto.
  - apply (proj2 (write_then_read Echo.tracks echo_host_echoing xonar_ae
                    (Echo.holding x01 1) (Some true) "headphones"
                    eq_refl eq_refl)).
    cbn. auto.
Defined.

End BenchRuns.

(** ** Beyond the claims: the log, the lock and the reference *)

Section LogFacts.

Lemma transfers_app (a b : list event) :
  transfers (a ++ b) = (transfers a ++ transfers b)%list.
Proof.
  induction a as [|ev a IH]; [reflexivity|].
  destruct ev; cbn; rewrite IH; reflexivity.
Qed.

Lemma references_app (a b : list event) :
  references (a ++ b) = references a + references b.
Proof.
  induction a as [|ev a IH]; [reflexivity|].
  destruct ev; cbn [app references]; rewrite IH; lia.
Qed.

(** A stretch that keeps the discipline ends with the mutex free, so
    the next stretch starts from there. *)
Lemma serialized_app (held : bool) (a b : list event) :
  serialized held a = true ->
  serialized held (a ++ b) = serialized false b.
Proof.
  revert held. induction a as [|ev a IH]; intros held S.
  - destruct held; [discriminate S | reflexivity].
  - destruct ev, held; cbn [app serialized negb andb] in *;
      try discriminate S; apply IH; exact S.
Qed.

End LogFacts.

Section Suffixes.

Context {env : Type} {H : Host env}.

Implicit Types (s : @kstate env) (udev : usb_device).

(** What a transfer routine adds to the log: nothing when the
    allocator fails, one control transfer otherwise. *)
Lemma xonar_switch_log udev speakers s :
  exists l, klog (snd (xonar_switch udev speakers s)) = (klog s ++ l)%list /\
            (l = [] \/ exists m, l = [EvControlMsg m]).
Proof.
  unfold xonar_switch. unfold_prims.
  host_step; cbn.
  - host_step; cbn. eexists. split; [reflexivity|]. right. eexists. reflexivity.
  - exists []. rewrite app_nil_r. auto.
Qed.

Lemma xonar_get_status_log udev s :
  exists l, klog (snd (xonar_get_status udev s)) = (klog s ++ l)%list /\
            (l = [] \/ exists m, l = [EvControlMsg m]).
Proof.
  unfold xonar_get_status. unfold_prims.
  host_step; cbn -[seq].
  - host_step; cbn -[seq]. destruct (_ <? 0); cbn -[seq];
      (eexists; split; [reflexivity|]; right; eexists; reflexivity).
  - exists []. rewrite app_nil_r. auto.
Qed.

(** The critical section of a write adds the lock, what the transfer
    routine adds, a line on success, and the unlock. *)
Lemma output_set_locked_log udev speakers s :
  exists l,
    klog (snd (output_set_locked udev speakers s)) = (klog s ++ l)%list /\
    serialized false l = true /\ references l = 0.
Proof.
  destruct (xonar_switch_log udev speakers (log EvMutexLock s))
    as (l & L & Shape).
  unfold output_set_locked, mutex_lock, mutex_unlock, pr_info, bind,
    modify, ret.
  destruct (xonar_switch udev speakers (log EvMutexLock s)) as [r s1].
  cbn [snd] in L. cbn [klog log] in L.
  destruct (r >=? 0); cbn [snd klog log set_output]; rewrite L;
    rewrite <- !app_assoc; eexists; (split; [reflexivity|]);
    destruct Shape as [->|[m ->]]; split; reflexivity.
Qed.

Lemma output_get_log s :
  exists l,
    klog (snd (output_get s)) = (klog s ++ l)%list /\
    serialized false l = true /\ references l = 0.
Proof.
  unfold output_get, mutex_lock, mutex_unlock, bind, modify, gets, ret.
  destruct (xonar_udev s) as [udev|];
    [|exists []; rewrite app_nil_r; repeat split; reflexivity].
  destruct (xonar_get_status_log udev (log EvMutexLock s)) as (l & L & Shape).
  destruct (xonar_get_status udev (log EvMutexLock s)) as [status s1].
  cbn [snd] in L. cbn [klog log] in L.
  assert (K : klog (log EvMutexUnlock
                      (if status >=? 0 then set_output status s1 else s1))
              = (klog s ++ EvMutexLock :: l ++ [EvMutexUnlock])%list).
  { destruct (status >=? 0); cbn [klog log set_output]; rewrite L;
      rewrite <- !app_assoc; reflexivity. }
  exists (EvMutexLock :: l ++ [EvMutexUnlock])%list.
  split.
  - destruct (status >=? 0); cbn [fst snd] in *;
      repeat match goal with
      | |- context [if ?b then _ else _] => destruct b
      end; exact K.
  - destruct Shape as [->|[m ->]]; split; reflexivity.
Qed.

Lemma output_set_log (val : string) s :
  exists l,
    klog (snd (output_set val s)) = (klog s ++ l)%list /\
    serialized false l = true /\ references l = 0.
Proof.
  unfold output_set, bind, gets, ret.
  destruct (xonar_udev s) as [udev|];
    [|exists []; rewrite app_nil_r; repeat split; reflexivity].
  destruct (output_token val) as [speakers|];
    [apply output_set_locked_log
    |exists []; rewrite app_nil_r; repeat split; reflexivity].
Qed.

Lemma serve_log (q : request) s :
  exists l,
    klog (snd (serve q s)) = (klog s ++ l)%list /\
    serialized false l = true /\ references l = 0.
Proof.
  destruct q as [val|]; cbn [serve]; unfold bind, ret.
  - pose proof (output_set_log val s) as P.
    destruct (output_set val s); exact P.
  - pose proof (output_get_log s) as P.
    destruct (output_get s) as [[n buf] s1]; exact P.
Qed.

(** Reads and writes never replace the handle. *)
Lemma output_set_handle (val : string) s :
  xonar_udev (snd (output_set val s)) = xonar_udev s.
Proof.
  unfold output_set, bind, gets, ret.
  destruct (xonar_udev s) as [udev|] eqn:D; [|exact D].
  destruct (output_token val) as [speakers|]; [|exact D].
  unfold output_set_locked, mutex_lock, mutex_unlock, pr_info, bind,
    modify, ret.
  pose proof (xonar_switch_frame udev speakers (log EvMutexLock s)) as [F _].
  destruct (xonar_switch udev speakers (log EvMutexLock s)) as [r s1].
  cbn [snd] in F. destruct (r >=? 0); cbn; rewrite F; exact D.
Qed.

Lemma output_get_handle s :
  xonar_udev (snd (output_get s)) = xonar_udev s.
Proof.
  unfold output_get, mutex_lock, mutex_unlock, bind, modify, gets, ret.
  destruct (xonar_udev s) as [udev|] eqn:D; [|exact D].
  pose proof (xonar_get_status_frame udev (log EvMutexLock s)) as [F _].
  destruct (xonar_get_status udev (log EvMutexLock s)) as [status s1].
  cbn [snd] in F.
  assert (K : xonar_udev (log EvMutexUnlock
                (if status >=? 0 then set_output status s1 else s1))
              = Some udev).
  { destruct (status >=? 0); cbn; rewrite F; exact D. }
  destruct (status >=? 0); cbn [fst snd] in *;
    repeat match goal with
    | |- context [if ?b then _ else _] => destruct b
    end; exact K.
Qed.

Lemma serve_handle (q : request) s :
  xonar_udev (snd (serve q s)) = xonar_udev s.
Proof.
  destruct q as [val|]; cbn [serve]; unfold bind, ret.
  - pose proof (output_set_handle val s) as P.
    destruct (output_set val s); exact P.
  - pose proof (output_get_handle s) as P.
    destruct (output_get s) as [[n buf] s1]; exact P.
Qed.

Lemma run_requests_log (rs : list request) s :
  exists l,
    klog (snd (run (map Param rs) s)) = (klog s ++ l)%list /\
    serialized false l = true /\ references l = 0 /\
    xonar_udev (snd (run (map Param rs) s)) = xonar_udev s.
Proof.
  revert s. induction rs as [|q rs IH]; intro s; cbn [map run].
  - exists []. rewrite app_nil_r. repeat split; reflexivity.
  - unfold bind, ret. cbn [enter].
    destruct (serve_log q s) as (l1 & L1 & S1 & R1).
    pose proof (serve_handle q s) as D1.
    destruct (serve q s) as [o s1]. cbn [snd] in L1, D1.
    destruct (IH s1) as (l2 & L2 & S2 & R2 & D2).
    destruct (run (map Param rs) s1) as [os s2]. cbn [snd] in *.
    exists (l1 ++ l2)%list. rewrite L2, L1, <- app_assoc.
    split; [reflexivity|]. split; [|split].
    + rewrite (serialized_app false l1 l2 S1). exact S2.
    + rewrite references_app. lia.
    + rewrite D2. exact D1.
Qed.

End Suffixes.

(** ** Beyond the claims: finding the card *)

Section Locator.

Context {env : Type} {H : Host env}.

Implicit Types (s : @kstate env) (udev d : usb_device).

Lemma is_xonar_dec d : {is_xonar d} + {~ is_xonar d}.
Proof.
  unfold is_xonar.
  destruct (Z.eq_dec (idVendor d) 0x0B05); [|right; tauto].
  destruct (Z.eq_dec (idProduct d) 0x180F); [left; tauto | right; tauto].
Qed.

Lemma match_xonar_card d (found : option usb_device) s :
  is_xonar d -> match_xonar d found s = ((1, Some d), log (EvGetDev d) s).
Proof.
  intros [V P]. unfold match_xonar, le16_to_cpu, XONAR_VENDOR_ID,
    XONAR_PRODUCT_ID. rewrite V, P. reflexivity.
Qed.

Lemma for_each_dev_first (pre post : list usb_device) d s :
  (forall x, In x pre -> ~ is_xonar x) ->
  is_xonar d ->
  for_each_dev (pre ++ d :: post) None match_xonar s
    = ((1, Some d), log (EvGetDev d) s).
Proof.
  intros N C. induction pre as [|x pre IH]; cbn [app for_each_dev]; unfold bind.
  - rewrite (match_xonar_card d None s C). reflexivity.
  - rewrite match_xonar_other by (apply N; left; reflexivity).
    cbn. apply IH. intros y I. apply N. right. exact I.
Qed.

(** A list of devices either holds no card or splits at its first
    card. *)
Lemma first_card (devs : list usb_device) :
  (forall x, In x devs -> ~ is_xonar x) \/
  (exists pre d post,
     devs = (pre ++ d :: post)%list /\
     (forall x, In x pre -> ~ is_xonar x) /\ is_xonar d).
Proof.
  induction devs as [|x devs IH].
  - left. intros x [].
  - destruct (is_xonar_dec x) as [C|N].
    + right. exists [], x, devs. split; [reflexivity|].
      split; [intros y []|exact C].
    + destruct IH as [None_|(pre & d & post & -> & P & C)].
      * left. intros y [<-|I]; [exact N | apply None_; exact I].
      * right. exists (x :: pre), d, post. split; [reflexivity|].
        split; [|exact C].
        intros y [<-|I]; [exact N | apply P; exact I].
Qed.

Lemma find_xonar_first s (pre post : list usb_device) d :
  host_devices (host s) = (pre ++ d :: post)%list ->
  (forall x, In x pre -> ~ is_xonar x) ->
  is_xonar d ->
  find_xonar s = (Some d, log (EvGetDev d) s).
Proof.
  intros B N C. unfold find_xonar, usb_for_each_dev, bind, gets.
  rewrite B, (for_each_dev_first pre post d s N C). reflexivity.
Qed.

(** X1. The scan settles on the first device of the bus, in the
    host's order, whose vendor and product are the card's: it takes
    one reference on that device, does nothing else, and never looks
    at the devices behind it. *)
Theorem find_xonar_first_card s (pre post : list usb_device) d :
  host_devices (host s) = (pre ++ d :: post)%list ->
  (forall x, In x pre -> ~ is_xonar x) ->
  is_xonar d ->
  find_xonar s = (Some d, log (EvGetDev d) s).
Proof. exact (find_xonar_first s pre post d). Qed.

(** X2. The scan yields no handle exactly when no device of the bus
    has the card's vendor and product; a handle it yields is a device
    of the bus that has them. *)
Theorem find_xonar_sound_and_complete s :
  (fst (find_xonar s) = None <->
   forall d, In d (host_devices (host s)) -> ~ is_xonar d) /\
  (forall d, fst (find_xonar s) = Some d ->
             In d (host_devices (host s)) /\ is_xonar d).
Proof.
  destruct (first_card (host_devices (host s)))
    as [N|(pre & c & post & B & P & C)].
  - rewrite (find_xonar_no_card s N). cbn [fst]. split.
    + split; [intros _; exact N | reflexivity].
    + discriminate.
  - rewrite (find_xonar_first s pre post c B P C). cbn [fst]. split.
    + split; [discriminate|].
      intro N. exfalso. apply (N c); [|exact C].
      rewrite B. apply in_or_app. right. left. reflexivity.
    + intros d E. injection E as <-. split; [|exact C].
      rewrite B. apply in_or_app. right. left. reflexivity.
Qed.

(** Startup with the card found: the result is 0 and the handle is
    kept, whatever the status query does. *)
Lemma init_found s udev s1 :
  find_xonar s = (Some udev, s1) ->
  fst (xonar_ae_init s) = 0 /\
  xonar_udev (snd (xonar_ae_init s)) = Some udev.
Proof.
  intro F. unfold xonar_ae_init, bind, modify, gets, pr_info, ret.
  rewrite F.
  pose proof (xonar_get_status_frame udev (set_udev (Some udev) s1)) as [D _].
  destruct (xonar_get_status udev (set_udev (Some udev) s1)) as [status s2].
  cbn [snd] in D. cbn. split; [reflexivity | exact D].
Qed.

Lemma init_not_found s :
  find_xonar s = (None, s) ->
  fst (xonar_ae_init s) = - ENODEV /\
  xonar_udev (snd (xonar_ae_init s)) = None.
Proof.
  intro F. unfold xonar_ae_init, bind, modify, pr_err, ret.
  rewrite F. split; reflexivity.
Qed.

(** X3. Startup succeeds exactly when a card is on the bus, also when
    its status query then fails; otherwise it answers -ENODEV. On
    success the handle it keeps is a card of the bus. *)
Theorem xonar_ae_init_result s :
  (fst (xonar_ae_init s) = 0 <->
   exists d, In d (host_devices (host s)) /\ is_xonar d) /\
  (fst (xonar_ae_init s) = 0 \/ fst (xonar_ae_init s) = - ENODEV) /\
  (fst (xonar_ae_init s) = 0 ->
   exists d, xonar_udev (snd (xonar_ae_init s)) = Some d /\
             In d (host_devices (host s)) /\ is_xonar d).
Proof.
  destruct (first_card (host_devices (host s)))
    as [N|(pre & c & post & B & P & C)].
  - destruct (init_not_found s (find_xonar_no_card s N)) as [R _].
    rewrite R. split; [|split].
    + split; [discriminate|]. intros (d & I & C). exfalso. exact (N d I C).
    + right. reflexivity.
    + discriminate.
  - assert (I : In c (host_devices (host s)))
      by (rewrite B; apply in_or_app; right; left; reflexivity).
    destruct (init_found s c _ (find_xonar_first s pre post c B P C))
      as [R D].
    rewrite R. split; [|split].
    + split; [intros _; exists c; split; assumption | reflexivity].
    + left. reflexivity.
    + intros _. exists c. split; [exact D | split; [exact I | exact C]].
Qed.

(** X4. When startup finds the card and its status query succeeds,
    the cache takes the status, which is 1 or 0, the handle is kept,
    and the last line logged names the output. *)
Theorem xonar_ae_init_caches_status s udev s1 status s2 :
  find_xonar s = (Some udev, s1) ->
  xonar_get_status udev (set_udev (Some udev) s1) = (status, s2) ->
  0 <= status ->
  fst (xonar_ae_init s) = 0 /\
  current_output (snd (xonar_ae_init s)) = status /\
  (status = 1 \/ status = 0) /\
  klog (snd (xonar_ae_init s))
    = (klog s2 ++ [EvPrInfo ("xonar-ae: loaded (current output: "
                             ++ (if status =? 1 then "speakers"
                                 else "headphones")
                             ++ ")" ++ nl)])%list.
Proof.
  intros F X P.
  pose proof (xonar_get_status_range udev (set_udev (Some udev) s1)) as R.
  rewrite X in R. cbn [fst] in R.
  unfold xonar_ae_init, bind, modify, gets, pr_info, ret.
  rewrite F, X. destruct (Z.geb_spec status 0); [|lia].
  cbn [fst snd current_output klog log set_output].
  split; [reflexivity|]. split; [reflexivity|].
  split; [lia|].
  destruct R as [R|[->| ->]]; [lia | reflexivity | reflexivity].
Qed.

End Locator.

(** ** Beyond the claims: the status transfer *)

Section StatusTransfer.

Context {env : Type} {H : Host env}.

Implicit Types (s : @kstate env) (udev : usb_device).

(** The status query once the block is there and the host has
    answered: the result, and the state it leaves. *)
Lemma xonar_get_status_reply udev s block e1 r reply e2 :
  host_kmalloc (host s) 6 = (Some block, e1) ->
  host_control_msg e1 (status_request udev (map block (seq 0 6)))
    = ((r, reply), e2) ->
  xonar_get_status udev s
    = ((if r <? 0 then r
        else if Byte.eqb (buf_load (buf_fill reply (map block (seq 0 6))) 0)
                         x08
             then 1 else 0),
       log (EvControlMsg (status_request udev (map block (seq 0 6))))
           (set_host e2 (set_host e1 s))).
Proof.
  intros A T. unfold xonar_get_status. unfold_prims. rewrite A.
  cbn -[seq]. unfold status_request in T.
  change (Z.lor (Z.lor USB_TYPE_CLASS USB_RECIP_INTERFACE) USB_DIR_IN)
    with 0xA1.
  change (Z.shiftl XONAR_CONNECTOR_CS 8) with 0x0200.
  change (Z.lor (Z.shiftl XONAR_OT7_ID 8) 0) with 0x0700.
  change UAC2_CS_CUR with 0x01.
  rewrite T. destruct (r <? 0); reflexivity.
Qed.

Lemma xonar_get_status_no_block udev s e1 :
  host_kmalloc (host s) 6 = (None, e1) ->
  xonar_get_status udev s = (- ENOMEM, set_host e1 s).
Proof.
  intro A. unfold xonar_get_status. unfold_prims. rewrite A. reflexivity.
Qed.

Lemma xonar_switch_no_block udev speakers s e1 :
  host_kmalloc (host s) 2 = (None, e1) ->
  xonar_switch udev speakers s = (- ENOMEM, set_host e1 s).
Proof.
  intro A. unfold xonar_switch. unfold_prims. rewrite A. reflexivity.
Qed.

(** X5. Once the six-byte block is obtained, [xonar_get_status] makes
    exactly one call to the host: a control transfer on the receive
    pipe of endpoint 0 (device to host) with request code 0x01,
    control selector 0x02 in the high byte of wValue, entity 7 in the
    high byte of wIndex, the six bytes of the block as buffer, length
    6 and a timeout of 1000 ms. *)
Theorem xonar_get_status_request udev s block e1 :
  host_kmalloc (host s) 6 = (Some block, e1) ->
  let m := status_request udev (map block (seq 0 6)) in
  klog (snd (xonar_get_status udev s)) = (klog s ++ [EvControlMsg m])%list
  /\ cm_pipe m = usb_rcvctrlpipe udev 0
  /\ cm_request m = 0x01
  /\ Z.land (cm_requesttype m) USB_DIR_IN = USB_DIR_IN
  /\ Z.shiftr (cm_value m) 8 = 0x02
  /\ Z.shiftr (cm_index m) 8 = 7
  /\ List.length (cm_data m) = 6%nat
  /\ cm_size m = 6 /\ cm_timeout m = 1000.
Proof.
  intros A m.
  destruct (host_control_msg e1 m) as [[r reply] e2] eqn:T.
  rewrite (xonar_get_status_reply udev s block e1 r reply e2 A T).
  repeat split; reflexivity.
Qed.

(** X6. The status query takes any non-negative transfer result for
    a full reply. When the transfer succeeds without carrying a byte,
    the result is decoded from the byte the allocator left at the
    start of the block: 1 if that byte is 8, 0 otherwise. *)
Theorem xonar_get_status_empty_reply udev s block e1 r e2 :
  host_kmalloc (host s) 6 = (Some block, e1) ->
  host_control_msg e1 (status_request udev (map block (seq 0 6)))
    = ((r, []), e2) ->
  0 <= r ->
  fst (xonar_get_status udev s)
    = (if Byte.eqb (block 0%nat) x08 then 1 else 0).
Proof.
  intros A T P.
  rewrite (xonar_get_status_reply udev s block e1 r [] e2 A T).
  destruct (Z.ltb_spec r 0); [lia | reflexivity].
Qed.

(** X7. Neither transfer routine writes a global: the handle and the
    cache are after [xonar_switch] and after [xonar_get_status] what
    they were before, whatever the host answers. *)
Theorem transfer_routines_keep_globals udev speakers s :
  xonar_udev (snd (xonar_switch udev speakers s)) = xonar_udev s /\
  current_output (snd (xonar_switch udev speakers s)) = current_output s /\
  xonar_udev (snd (xonar_get_status udev s)) = xonar_udev s /\
  current_output (snd (xonar_get_status udev s)) = current_output s.
Proof.
  destruct (xonar_switch_frame udev speakers s) as [A B].
  destruct (xonar_get_status_frame udev s) as [C D].
  repeat split; assumption.
Qed.

End StatusTransfer.

(** ** Beyond the claims: writes and reads of the parameter *)

Section OutputParamMore.

Context {env : Type} {H : Host env}.

Implicit Types (s : @kstate env) (udev : usb_device).

Lemma output_token_bit (t : string) speakers :
  output_token t = Some speakers -> speakers = 1 \/ speakers = 0.
Proof.
  unfold output_token.
  destruct (_ || _); [intro E; injection E as <-; left; reflexivity|].
  destruct (_ || _); [intro E; injection E as <-; right; reflexivity|].
  discriminate.
Qed.

(** The critical section of a write whose transfer succeeds. *)
Lemma output_set_locked_success udev speakers s r s1 :
  xonar_switch udev speakers (log EvMutexLock s) = (r, s1) ->
  0 <= r ->
  output_set_locked udev speakers s
    = (0, log EvMutexUnlock
            (log (EvPrInfo ("xonar-ae: switched to "
                            ++ output_name speakers ++ nl))
                 (set_output speakers s1))).
Proof.
  intros X P.
  unfold output_set_locked, mutex_lock, mutex_unlock, pr_info, bind,
    modify, ret.
  rewrite X.
  destruct (Z.geb_spec r 0); [|lia]. destruct (Z.ltb_spec r 0); [lia|].
  reflexivity.
Qed.

(** A read whose status query succeeds. *)
Lemma output_get_success udev s status s1 :
  xonar_udev s = Some udev ->
  xonar_get_status udev (log EvMutexLock s) = (status, s1) ->
  0 <= status ->
  output_get s
    = (sprintf (render status), log EvMutexUnlock (set_output status s1)).
Proof.
  intros D X P.
  unfold output_get, mutex_lock, mutex_unlock, bind, modify, ret, gets.
  rewrite D, X. destruct (Z.geb_spec status 0); [|lia].
  cbn [fst snd current_output log set_output]. unfold render.
  destruct (status =? 1); [reflexivity|].
  destruct (status =? 0); reflexivity.
Qed.

(** X8. A write of an accepted token whose transfer succeeds answers
    0 whatever count the transfer returned, caches the selection of
    the token, which is 1 or 0, logs the line that names it and then
    releases the mutex. *)
Theorem output_set_success s udev (t : string) speakers r s1 :
  xonar_udev s = Some udev ->
  output_token t = Some speakers ->
  xonar_switch udev speakers (log EvMutexLock s) = (r, s1) ->
  0 <= r ->
  fst (output_set t s) = 0 /\
  current_output (snd (output_set t s)) = speakers /\
  (speakers = 1 \/ speakers = 0) /\
  klog (snd (output_set t s))
    = (klog s1 ++ [EvPrInfo ("xonar-ae: switched to "
                             ++ (if speakers =? 1 then "speakers"
                                 else "headphones") ++ nl);
                   EvMutexUnlock])%list.
Proof.
  intros D T X P. unfold output_set, bind, gets. rewrite D, T.
  rewrite (output_set_locked_success udev speakers s r s1 X P).
  pose proof (output_token_bit t speakers T) as B.
  cbn [fst snd current_output klog log set_output].
  split; [reflexivity|]. split; [reflexivity|]. split; [exact B|].
  rewrite <- app_assoc.
  destruct B as [-> | ->]; reflexivity.
Qed.

(** X9. A read shows what the device reports, not what was cached:
    with a handle, the block obtained and a status reply whose byte 0
    is [count], the line is "speakers" when [count] is 8 and
    "headphones" otherwise, and the cache is set to match, whatever it
    held before. *)
Theorem output_get_shows_device s udev block e1 r count rest e2 :
  xonar_udev s = Some udev ->
  host_kmalloc (host s) 6 = (Some block, e1) ->
  host_control_msg e1 (status_request udev (map block (seq 0 6)))
    = ((r, count :: rest), e2) ->
  0 <= r ->
  snd (fst (output_get s))
    = (if Byte.eqb count x08 then "speakers" ++ nl
       else "headphones" ++ nl)%string /\
  current_output (snd (output_get s))
    = (if Byte.eqb count x08 then 1 else 0).
Proof.
  intros D A T P.
  pose proof (xonar_get_status_reply udev (log EvMutexLock s) block e1 r
                (count :: rest) e2 A T) as X.
  destruct (Z.ltb_spec r 0); [lia|].
  change (buf_load (buf_fill (count :: rest) (map block (seq 0 6))) 0)
    with count in X.
  rewrite (output_get_success udev s _ _ D X)
    by (destruct (Byte.eqb count x08); lia).
  destruct (Byte.eqb count x08); split; reflexivity.
Qed.

(** X10. The result of a write is 0 or a negative errno, never a
    positive count, whatever the token, the state and the host. *)
Theorem output_set_never_positive (val : string) s :
  fst (output_set val s) <= 0.
Proof.
  unfold output_set, bind, gets, ret.
  destruct (xonar_udev s) as [udev|]; [|cbn; unfold ENODEV; lia].
  destruct (output_token val) as [speakers|]; [|cbn; unfold EINVAL; lia].
  unfold output_set_locked, mutex_lock, mutex_unlock, pr_info, bind,
    modify, ret.
  destruct (xonar_switch udev speakers (log EvMutexLock s)) as [r s1].
  destruct (r >=? 0); cbn; destruct (Z.ltb_spec r 0); lia.
Qed.

(** X11. A read shows "disconnected" exactly when there is no
    handle: once a card is held the line is one of the other three,
    also when every transfer fails. *)
Theorem disconnected_iff_no_handle s :
  snd (fst (output_get s)) = ("disconnected" ++ nl)%string <->
  xonar_udev s = None.
Proof.
  split.
  - destruct (xonar_udev s) as [udev|] eqn:D; [|reflexivity].
    unfold output_get, mutex_lock, mutex_unlock, bind, modify, gets, ret.
    rewrite D.
    destruct (xonar_get_status udev (log EvMutexLock s)) as [status s1].
    destruct (status >=? 0); cbn [fst snd];
      repeat match goal with
      | |- context [if ?b then _ else _] => destruct b
      end; cbn; discriminate.
  - intro D. rewrite (output_get_no_handle s D). reflexivity.
Qed.

(** X12. When the allocator fails during a write of an accepted
    token, the write answers -ENOMEM, makes no transfer, leaves the
    cache as it was, and has taken and released the mutex. *)
Theorem output_set_out_of_memory s udev (t : string) speakers e1 :
  xonar_udev s = Some udev ->
  output_token t = Some speakers ->
  host_kmalloc (host s) 2 = (None, e1) ->
  fst (output_set t s) = - ENOMEM /\
  current_output (snd (output_set t s)) = current_output s /\
  klog (snd (output_set t s))
    = (klog s ++ [EvMutexLock; EvMutexUnlock])%list /\
  transfers (klog (snd (output_set t s))) = transfers (klog s).
Proof.
  intros D T A. unfold output_set, bind, gets. rewrite D, T.
  unfold output_set_locked, mutex_lock, mutex_unlock, pr_info, bind,
    modify, ret.
  rewrite (xonar_switch_no_block udev speakers (log EvMutexLock s) e1 A).
  cbn. rewrite <- app_assoc. cbn [app].
  repeat split; try reflexivity.
  rewrite transfers_app. cbn. apply app_nil_r.
Qed.

(** X13. When the allocator fails during a read, the read makes no
    transfer, leaves the cache as it was and shows the line of the
    cached value. *)
Theorem output_get_out_of_memory s udev e1 :
  xonar_udev s = Some udev ->
  host_kmalloc (host s) 6 = (None, e1) ->
  snd (fst (output_get s)) = render (current_output s) /\
  current_output (snd (output_get s)) = current_output s /\
  transfers (klog (snd (output_get s))) = transfers (klog s).
Proof.
  intros D A.
  pose proof (xonar_get_status_no_block udev (log EvMutexLock s) e1 A) as X.
  assert (N : - ENOMEM < 0) by (unfold ENOMEM; lia).
  destruct (output_get_failure udev s _ _ D X N) as [F R].
  rewrite R. cbn [fst snd sprintf]. split; [reflexivity|].
  split; [exact F|].
  unfold output_get, mutex_lock, mutex_unlock, bind, modify, gets, ret.
  rewrite D, X. cbn [Z.geb Z.compare ENOMEM Z.opp].
  cbn [fst snd].
  repeat match goal with
  | |- context [if ?b then _ else _] => destruct b
  end; cbn; rewrite <- app_assoc, transfers_app; cbn; apply app_nil_r.
Qed.

(** X14. A write that succeeds followed by a read whose status query
    fails: the read shows the selection just written. *)
Theorem write_then_failed_read s udev (t : string) speakers r s1 status s2 :
  xonar_udev s = Some udev ->
  output_token t = Some speakers ->
  xonar_switch udev speakers (log EvMutexLock s) = (r, s1) ->
  0 <= r ->
  xonar_get_status udev (log EvMutexLock (snd (output_set t s)))
    = (status, s2) ->
  status < 0 ->
  fst (output_set t s) = 0 /\
  snd (fst (output_get (snd (output_set t s))))
    = (if speakers =? 1 then ("speakers" ++ nl)%string
       else ("headphones" ++ nl)%string).
Proof.
  intros D T X P G N.
  pose proof (output_set_handle t s) as D'. rewrite D in D'.
  destruct (output_get_failure udev _ status s2 D' G N) as [_ R].
  rewrite R. cbn [fst snd sprintf].
  unfold output_set, bind, gets. rewrite D, T.
  rewrite (output_set_locked_success udev speakers s r s1 X P).
  cbn [fst snd current_output log set_output]. split; [reflexivity|].
  destruct (output_token_bit t speakers T) as [-> | ->]; reflexivity.
Qed.

End OutputParamMore.

(** ** Beyond the claims: the mutex, the handle and the reference *)

Section Discipline.

Context {env : Type} {H : Host env}.

Implicit Types (s : @kstate env) (udev : usb_device).

Lemma run_cons_state (c : entry) (cs : list entry) s :
  snd (run (c :: cs) s) = snd (run cs (snd (enter c s))).
Proof.
  cbn [run]. unfold bind, ret. destruct (enter c s) as [o s1].
  cbn [snd]. destruct (run cs s1). reflexivity.
Qed.

Lemma run_app_state (a b : list entry) s :
  snd (run (a ++ b) s) = snd (run b (snd (run a s))).
Proof.
  revert s. induction a as [|c a IH]; intro s; [reflexivity|].
  cbn [app]. rewrite !run_cons_state. apply IH.
Qed.

(** What startup adds to the log. *)
Lemma xonar_ae_init_log s :
  exists l,
    klog (snd (xonar_ae_init s)) = (klog s ++ l)%list /\
    ~ In EvMutexLock l /\ ~ In EvMutexUnlock l /\
    (transfers l <> [] -> serialized false l = false) /\
    references l = match xonar_udev (snd (xonar_ae_init s)) with
                   | Some _ => 1
                   | None => 0
                   end.
Proof.
  destruct (first_card (host_devices (host s)))
    as [N|(pre & c & post & B & P & C)].
  - pose proof (find_xonar_no_card s N) as F.
    unfold xonar_ae_init, pr_err. unfold bind, modify, ret. rewrite F.
    cbn [snd klog log set_udev xonar_udev]. eexists. split; [reflexivity|].
    cbn. intuition discriminate.
  - pose proof (find_xonar_first s pre post c B P C) as F.
    unfold xonar_ae_init, pr_info. unfold bind, modify, gets, ret.
    rewrite F.
    set (s1 := set_udev (Some c) (log (EvGetDev c) s)).
    destruct (xonar_get_status_log c s1) as (l & L & Shape).
    pose proof (xonar_get_status_frame c s1) as [D _].
    destruct (xonar_get_status c s1) as [status s2].
    cbn [snd] in L, D.
    cbn [snd klog log set_output xonar_udev]. rewrite D, L.
    cbn [s1 klog log set_udev xonar_udev]. rewrite <- !app_assoc.
    eexists. split; [reflexivity|].
    destruct Shape as [->|[m ->]]; cbn; intuition discriminate.
Qed.

(** What unloading does to the handle and the log. *)
Lemma xonar_ae_exit_effect s :
  xonar_udev (snd (xonar_ae_exit s)) = None /\
  klog (snd (xonar_ae_exit s))
    = (klog s ++ match xonar_udev s with
                 | Some d => [EvPutDev d]
                 | None => []
                 end ++ [EvPrInfo ("xonar-ae: unloaded" ++ nl)])%list.
Proof.
  unfold xonar_ae_exit, usb_put_dev, pr_info, bind, modify, gets, ret.
  destruct (xonar_udev s); cbn; rewrite <- ?app_assoc; split; reflexivity.
Qed.

(** X15. Reads and writes keep the lock discipline: over any
    sequence of them, whatever the tokens and whatever the host does,
    the mutex is taken only when free, every control transfer is made
    with the mutex held, and the mutex is free again at the end. *)
Theorem requests_are_serialized (rs : list request) s :
  exists l,
    klog (snd (run (map Param rs) s)) = (klog s ++ l)%list /\
    serialized false l = true.
Proof.
  destruct (run_requests_log rs s) as (l & L & S & _).
  exists l. split; assumption.
Qed.

(** X16. Reads and writes never drop, replace or re-reference the
    handle: after any sequence of them the handle is the one held
    before and the count of references is unchanged. *)
Theorem requests_keep_handle (rs : list request) s :
  xonar_udev (snd (run (map Param rs) s)) = xonar_udev s /\
  references (klog (snd (run (map Param rs) s))) = references (klog s).
Proof.
  destruct (run_requests_log rs s) as (l & L & _ & R & D).
  split; [exact D|]. rewrite L, references_app. lia.
Qed.

(** X17. Startup never touches the mutex: what it adds to the log
    holds no lock and no unlock, so the status transfer it makes when
    it finds the card breaks the lock discipline that reads and
    writes keep. *)
Theorem xonar_ae_init_takes_no_lock s :
  exists l,
    klog (snd (xonar_ae_init s)) = (klog s ++ l)%list /\
    ~ In EvMutexLock l /\ ~ In EvMutexUnlock l /\
    (transfers l <> [] -> serialized false l = false).
Proof.
  destruct (xonar_ae_init_log s) as (l & L & A & B & C & _).
  exists l. repeat split; assumption.
Qed.

(** X18. Unloading always leaves no handle; it drops one reference
    when a handle was held and none otherwise, so unloading twice
    drops nothing the second time; and after it every write is
    refused with -ENODEV and every read shows "disconnected". *)
Theorem xonar_ae_exit_releases_once s (rs : list request) :
  xonar_udev (snd (xonar_ae_exit s)) = None /\
  references (klog (snd (xonar_ae_exit s)))
    = references (klog s) - match xonar_udev s with
                            | Some _ => 1
                            | None => 0
                            end /\
  references (klog (snd (xonar_ae_exit (snd (xonar_ae_exit s)))))
    = references (klog (snd (xonar_ae_exit s))) /\
  fst (run (map Param rs) (snd (xonar_ae_exit s)))
    = map (fun q => match q with
                    | Write _ => Status (- ENODEV)
                    | Read => Text 13 ("disconnected" ++ nl)
                    end) rs.
Proof.
  destruct (xonar_ae_exit_effect s) as [D L].
  destruct (xonar_ae_exit_effect (snd (xonar_ae_exit s))) as [_ L2].
  rewrite D in L2.
  split; [exact D|]. split; [|split].
  - rewrite L, !references_app. destruct (xonar_udev s); cbn; lia.
  - rewrite L2, !references_app. cbn. lia.
  - rewrite (run_without_handle rs _ D). reflexivity.
Qed.

(** X19. Over a whole life of the module, startup on the module
    image, any reads and writes, then unloading, every reference
    taken on a device is dropped again and no handle is left, whether
    or not a card was found and whatever the host does. *)
Theorem references_balance (e : env) (rs : list request) :
  references
    (klog (snd (run (Init :: map Param rs ++ [Exit]) (module_image e)))) = 0
  /\ xonar_udev (snd (run (Init :: map Param rs ++ [Exit]) (module_image e)))
     = None.
Proof.
  rewrite run_cons_state, run_app_state, run_cons_state.
  cbn [run snd ret].
  assert (E1 : forall s, snd (enter Init s) = snd (xonar_ae_init s)).
  { intro s. cbn [enter]. unfold bind, ret.
    destruct (xonar_ae_init s). reflexivity. }
  assert (E2 : forall s, snd (enter Exit s) = snd (xonar_ae_exit s)).
  { intro s. cbn [enter]. unfold bind, ret.
    destruct (xonar_ae_exit s). reflexivity. }
  rewrite E1, E2.
  set (s1 := snd (xonar_ae_init (module_image e))).
  destruct (xonar_ae_init_log (module_image e)) as (l & L & _ & _ & _ & R).
  fold s1 in L, R. cbn [klog module_image app] in L.
  destruct (run_requests_log rs s1) as (l2 & L2 & _ & R2 & D2).
  set (s2 := snd (run (map Param rs) s1)) in *.
  destruct (xonar_ae_exit_effect s2) as [D3 L3].
  split; [|exact D3].
  rewrite L3, !references_app, L2, references_app, L, R, R2, D2.
  destruct (xonar_udev s1); cbn; lia.
Qed.

End Discipline.

(** ** Beyond the claims: runs on the bench *)

Section RigRuns.

Import Bench Rig.

Lemma find_xonar_first_card_witness :
  find_xonar (module_image two_cards)
    = (Some xonar_ae, log (EvGetDev xonar_ae) (module_image two_cards)).
Proof.
  apply (find_xonar_first_card (H := bench_host)
           (module_image two_cards) [hub] [second_card] xonar_ae eq_refl).
  - intros x [<-|[]] [V _]. discriminate V.
  - split; reflexivity.
Defined.

Lemma xonar_ae_init_caches_status_witness :
  fst (xonar_ae_init (module_image two_channels)) = 0 /\
  current_output (snd (xonar_ae_init (module_image two_channels))) = 0.
Proof.
  assert (P : 0 <= 0) by lia.
  destruct (xonar_ae_init_caches_status (H := bench_host)
              (module_image two_channels) xonar_ae _ 0 _
              eq_refl eq_refl P) as (A & B & _).
  split; [exact A | exact B].
Defined.

Lemma xonar_get_status_request_witness :
  klog (snd (xonar_get_status xonar_ae (holding dead_link 0)))
    = [EvControlMsg
         (status_request xonar_ae [x00; x00; x00; x00; x00; x00])].
Proof.
  exact (proj1 (xonar_get_status_request (H := bench_host) xonar_ae
                  (holding dead_link 0) (fun _ => x00) dead_link eq_refl)).
Defined.

Lemma xonar_get_status_empty_reply_witness :
  fst (xonar_get_status xonar_ae (holding one_empty_success 1)) = 0.
Proof.
  assert (P : 0 <= 2) by lia.
  exact (xonar_get_status_empty_reply (H := bench_host) xonar_ae
           (holding one_empty_success 1) (fun _ => x00) one_empty_success 2
           {| attached := [hub; xonar_ae]; heap_ok := true; script := [] |}
           eq_refl eq_refl P).
Defined.

Lemma output_set_success_witness :
  fst (output_set "speakers" (holding one_empty_success 0)) = 0 /\
  current_output (snd (output_set "speakers" (holding one_empty_success 0)))
    = 1.
Proof.
  assert (P : 0 <= 2) by lia.
  destruct (output_set_success (H := bench_host)
              (holding one_empty_success 0) xonar_ae "speakers" 1 2 _
              eq_refl eq_refl eq_refl P) as (A & B & _).
  split; [exact A | exact B].
Defined.

Lemma output_get_shows_device_witness :
  snd (fst (output_get (holding two_channels 1)))
    = ("headphones" ++ nl)%string /\
  current_output (snd (output_get (holding two_channels 1))) = 0.
Proof.
  assert (P : 0 <= 6) by lia.
  exact (output_get_shows_device (H := bench_host)
           (holding two_channels 1) xonar_ae (fun _ => x00) two_channels
           6 x02 [x00; x00; x00; x00; x00]
           {| attached := [hub; xonar_ae]; heap_ok := true; script := [] |}
           eq_refl eq_refl eq_refl P).
Defined.

Lemma output_set_out_of_memory_witness :
  fst (output_set "0" (holding no_heap 1)) = - ENOMEM /\
  current_output (snd (output_set "0" (holding no_heap 1))) = 1.
Proof.
  destruct (output_set_out_of_memory (H := bench_host)
              (holding no_heap 1) xonar_ae "0" 0 no_heap
              eq_refl eq_refl eq_refl) as (A & B & _).
  split; [exact A | exact B].
Defined.

Lemma output_get_out_of_memory_witness :
  snd (fst (output_get (holding no_heap 1))) = ("speakers" ++ nl)%string /\
  current_output (snd (output_get (holding no_heap 1))) = 1.
Proof.
  destruct (output_get_out_of_memory (H := bench_host)
              (holding no_heap 1) xonar_ae no_heap eq_refl eq_refl)
    as (A & B & _).
  split; [exact A | exact B].
Defined.

Lemma write_then_failed_read_witness :
  fst (output_set "speakers" (holding one_empty_success 0)) = 0 /\
  snd (fst (output_get
              (snd (output_set "speakers" (holding one_empty_success 0)))))
    = ("speakers" ++ nl)%string.
Proof.
  assert (P : 0 <= 2) by lia.
  assert (N : - ETIMEDOUT < 0) by (unfold ETIMEDOUT; lia).
  exact (write_then_failed_read (H := bench_host)
           (holding one_empty_success 0) xonar_ae
           "speakers" 1 2 _ (- ETIMEDOUT) _ eq_refl eq_refl
           (eq_refl : _ = (2, snd (xonar_switch xonar_ae 1
                                     (log EvMutexLock
                                        (holding one_empty_success 0)))))
           P
           (eq_refl : _ = (- ETIMEDOUT,
                           snd (xonar_get_status xonar_ae
                                  (log EvMutexLock
                                     (snd (output_set "speakers"
                                             (holding one_empty_success 0)))))))
           N).
Defined.

End RigRuns.
